(** * Dropout-risk model lifecycle: a shallow embedding

    This development embeds the model-lifecycle core of the student dropout
    system: [integration.py] (class [DropoutPredictor]),
    [real-time-monitoring.py] (class [RealTimeMonitor], method [send_alerts])
    and [model-maintaince.py] (class [ModelMaintenance]).  Of the code these
    call it also embeds the daily job of the monitor with
    [DatabaseConnector.execute_query] ([database_connector.py]) and the
    notifier ([notification_system.py], class [NotificationSystem]).

    Modelling decisions
    - Python [float] is IEEE binary64: metrics and probabilities are Rocq
      primitive floats, and decimal literals of the source ([0.3], [0.7],
      [0.02], [0.05]) are the same binary64 constants.
    - Python exceptions are an error result [res]; [try]/[except] is
      [try_except].  Code that reads or writes the process state runs in the
      state-and-exception monad [M]; state written before an exception is
      raised stays written.
    - scikit-learn, joblib and the clock are outside the repository.
      Estimators and metrics are an interface ([Sklearn]); the joblib store is
      a finite map from paths to files, whose writes may fail as an oracle in
      the state dictates; [datetime.now()] reads a clock oracle.
    - [logger] calls are not modelled. *)

From Stdlib Require Import Floats ZArith Uint63.
From stdpp Require Import gmap strings list.

Set Warnings "-inexact-float".

(** ** Python values, exceptions and results *)

Module Py.

(** Cell values of records and data frames: text or number.  Numbers are
    binary64 (a Python [int] cell is the float of the same value, which is
    what a numeric pandas column holds once it reaches an estimator). *)
Inductive value :=
| VStr (s : string)
| VNum (x : float).

(** Python [==] on cells. *)
Definition value_eqb (a b : value) : bool :=
  match a, b with
  | VStr s, VStr t => String.eqb s t
  | VNum x, VNum y => PrimFloat.eqb x y
  | _, _ => false
  end.

(** [x in xs] for a sequence [xs]. *)
Definition value_in (x : value) (xs : list value) : bool :=
  existsb (value_eqb x) xs.

Definition float_of_nat (n : nat) : float :=
  PrimFloat.of_uint63 (Uint63.of_Z (Z.of_nat n)).

Inductive exn :=
| FileNotFoundError (msg : string)
| ValueError (msg : string)
| KeyError (msg : string)
| IndexError (msg : string)
| OSError (msg : string)
| Exception (msg : string).

(** [str(e)] *)
Definition str (e : exn) : string :=
  match e with
  | FileNotFoundError m | ValueError m | KeyError m
  | IndexError m | OSError m | Exception m => m
  end.

Inductive res (A : Type) :=
| Ok (a : A)
| Raise (e : exn).
Arguments Ok {A} a.
Arguments Raise {A} e.

#[global] Instance res_ret : MRet res := @Ok.
#[global] Instance res_bind : MBind res := fun A B k r =>
  match r with
  | Ok a => k a
  | Raise e => Raise e
  end.

(** [xs[i]] on a list *)
Definition getitem {A} (xs : list A) (i : nat) : res A :=
  match xs !! i with
  | Some x => Ok x
  | None => Raise (IndexError "index out of range")
  end.

Definition datetime := Z.

End Py.
Export Py.

(** ** pandas data frames

  A frame is its row count and its labelled columns, in order. *)

Module Pandas.

Record DataFrame := mkDataFrame {
  index_len : nat;
  data : list (string * list value)
}.

(** [df.columns] *)
Definition columns (df : DataFrame) : list string := (data df).*1.

(** [len(df)] *)
Definition len (df : DataFrame) : nat := index_len df.

(** [df.empty]: some axis has length 0. *)
Definition empty (df : DataFrame) : bool :=
  (index_len df =? 0)%nat || (length (data df) =? 0)%nat.

(** [c in df.columns] *)
Definition has_column (c : string) (df : DataFrame) : bool :=
  existsb (String.eqb c) (columns df).

Fixpoint assoc (c : string) (kvs : list (string * list value)) : option (list value) :=
  match kvs with
  | [] => None
  | (k, v) :: rest => if String.eqb c k then Some v else assoc c rest
  end.

(** [df[c]] *)
Definition getitem_col (df : DataFrame) (c : string) : res (list value) :=
  match assoc c (data df) with
  | Some col => Ok col
  | None => Raise (KeyError c)
  end.

(** [df.drop(c, axis=1)]: a new frame without the columns labelled [c]. *)
Definition drop (c : string) (df : DataFrame) : res DataFrame :=
  if has_column c df then
    Ok (mkDataFrame (index_len df)
          (filter (fun kv => negb (String.eqb c kv.1)) (data df)))
  else Raise (KeyError c).

Fixpoint assign (c : string) (col : list value) (kvs : list (string * list value))
  : list (string * list value) :=
  match kvs with
  | [] => [(c, col)]
  | (k, v) :: rest =>
      if String.eqb c k then (k, col) :: rest else (k, v) :: assign c col rest
  end.

(** [df[c] = col]: replace the column, or append it. *)
Definition setitem_col (c : string) (col : list value) (df : DataFrame) : DataFrame :=
  mkDataFrame (index_len df) (assign c col (data df)).

(** [df[c] = v] for a scalar [v]: broadcast over the rows. *)
Definition setitem_scalar (c : string) (v : value) (df : DataFrame) : DataFrame :=
  setitem_col c (replicate (index_len df) v) df.

Fixpoint select_cols (names : list string) (kvs : list (string * list value))
  : res (list (string * list value)) :=
  match names with
  | [] => Ok []
  | c :: rest =>
      match assoc c kvs with
      | Some col => cols ← select_cols rest kvs; Ok ((c, col) :: cols)
      | None => Raise (KeyError c)
      end
  end.

(** [df[names]]: the named columns, in the order of [names].  Where several
    columns carry one label pandas gives all of them and this gives the
    first; the labels of a frame built from a record are distinct. *)
Definition getitem_cols (df : DataFrame) (names : list string) : res DataFrame :=
  cols ← select_cols names (data df); Ok (mkDataFrame (index_len df) cols).

(** [pd.DataFrame([d])] for a dict [d]: one row. *)
Definition of_record (d : gmap string value) : DataFrame :=
  mkDataFrame 1 ((fun kv => (kv.1, [kv.2])) <$> map_to_list d).

End Pandas.
Export Pandas.

(** ** scikit-learn

    Fitted estimators, scalers and encoders are opaque objects; their methods
    are functions of the object and its argument, and may raise.  [ndarray]
    is what a scaler returns and an estimator consumes. *)

Class Sklearn := {
  Model : Type;
  Scaler : Type;
  LabelEncoder : Type;
  ndarray : Type;
  (** [encoder.classes_] *)
  classes_ : LabelEncoder -> list value;
  (** [encoder.transform(col)] *)
  encoder_transform : LabelEncoder -> list value -> res (list value);
  (** [scaler.transform(X)] *)
  scaler_transform : Scaler -> DataFrame -> res ndarray;
  (** [scaler.__class__()]: a new, unfitted scaler of the same class *)
  scaler_class_new : Scaler -> Scaler;
  (** [scaler.fit_transform(X)]: the scaler once fitted, and the scaled data *)
  scaler_fit_transform : Scaler -> DataFrame -> res (Scaler * ndarray);
  (** [model.predict(X)] *)
  predict : Model -> ndarray -> res (list value);
  (** [model.predict_proba(X)]: per row, the probability of each class *)
  predict_proba : Model -> ndarray -> res (list (list float));
  (** [model.score(X, y)] *)
  score : Model -> ndarray -> list value -> res float;
  (** [GradientBoostingClassifier(n_estimators=100, random_state=42)]
      followed by [.fit(X, y)]: the fitted classifier *)
  GradientBoostingClassifier_fit : ndarray -> list value -> res Model;
  (** [accuracy_score(y_true, y_pred)] *)
  accuracy_score : list value -> list value -> res float;
  (** [f1_score(y_true, y_pred)] *)
  f1_score : list value -> list value -> res float;
  (** [train_test_split(X, y, test_size=0.2, random_state=42, stratify=y)]:
      [(X_train, X_test, y_train, y_test)] *)
  train_test_split :
    DataFrame -> list value ->
    res (DataFrame * DataFrame * list value * list value)
}.

(** ** Artifacts, the joblib store and the process state *)

Section Lifecycle.
Context `{SK : Sklearn}.

(** The pickled bundle: a dict with these keys, each possibly absent. *)
Record Artifacts := mkArtifacts {
  a_model : option Model;
  a_scaler : option Scaler;
  a_label_encoders : option (list (string * LabelEncoder));
  a_feature_names : option (list string);
  a_retrained_at : option datetime
}.

(** [d[k]] on the bundle *)
Definition getkey {A} (k : string) (field : option A) : res A :=
  match field with
  | Some x => Ok x
  | None => Raise (KeyError k)
  end.

(** What a path of the store holds: a complete pickle, or the remains of a
    write that failed half-way. *)
Inductive file :=
| Pickled (a : Artifacts)
| Torn.

(** How the next [joblib.dump] ends: it completes, or it raises, leaving the
    target as it was ([torn = false]) or partly written ([torn = true]). *)
Inductive dump_outcome :=
| DumpOk
| DumpFails (torn : bool).

(** [performance_history] entries *)
Record performance := mkPerformance {
  p_timestamp : datetime;
  p_accuracy : float;
  p_f1_score : float;
  p_samples : nat
}.

(** A [ModelMaintenance] instance *)
Record ModelMaintenance := mkModelMaintenance {
  model_path : string;
  performance_history : list performance
}.

(** What [RealTimeMonitor.send_alerts] interpolates into the message. *)
Record alert_message := mkAlertMessage {
  msg_student_id : value;
  msg_probability : float;
  msg_risk_level : string;
  msg_time : datetime
}.

(** A call of [NotificationSystem.send_alert] *)
Record alert := mkAlert {
  recipient : string;
  subject : string;
  message : alert_message
}.

(** The process state: the [ModelMaintenance] instance, the files of the
    store, the outcomes of the coming dumps, the coming readings of the
    clock, and the alerts handed to the notifier so far. *)
Record state := mkState {
  maintenance : ModelMaintenance;
  fs : gmap string file;
  dump_faults : list dump_outcome;
  clock : list datetime;
  outbox : list alert
}.

Definition set_maintenance (mm : ModelMaintenance) (s : state) : state :=
  mkState mm (fs s) (dump_faults s) (clock s) (outbox s).
Definition set_fs (f : gmap string file) (s : state) : state :=
  mkState (maintenance s) f (dump_faults s) (clock s) (outbox s).
Definition set_dump_faults (d : list dump_outcome) (s : state) : state :=
  mkState (maintenance s) (fs s) d (clock s) (outbox s).
Definition set_clock (c : list datetime) (s : state) : state :=
  mkState (maintenance s) (fs s) (dump_faults s) c (outbox s).
Definition set_outbox (o : list alert) (s : state) : state :=
  mkState (maintenance s) (fs s) (dump_faults s) (clock s) o.

(** *** The state-and-exception monad *)

Definition M (A : Type) : Type := state -> res A * state.

#[global] Instance M_ret : MRet M := fun A a s => (Ok a, s).
#[global] Instance M_bind : MBind M := fun A B k m s =>
  match m s with
  | (Ok a, s') => k a s'
  | (Raise e, s') => (Raise e, s')
  end.

Definition raise {A} (e : exn) : M A := fun s => (Raise e, s).

(** A computation that cannot touch the state. *)
Definition pure {A} (r : res A) : M A := fun s => (r, s).

(** [try: m  except Exception as e: h e] *)
Definition try_except {A} (m : M A) (h : exn -> M A) : M A := fun s =>
  match m s with
  | (Ok a, s') => (Ok a, s')
  | (Raise e, s') => h e s'
  end.

(** [datetime.now()] *)
Definition datetime_now : M datetime := fun s =>
  (Ok (List.hd 0%Z (clock s)), set_clock (List.tl (clock s)) s).

(** [joblib.load(path)] *)
Definition joblib_load (path : string) : M Artifacts := fun s =>
  match fs s !! path with
  | None => (Raise (FileNotFoundError path), s)
  | Some Torn => (Raise (Exception "cannot unpickle"), s)
  | Some (Pickled a) => (Ok a, s)
  end.

(** [joblib.dump(obj, path)] *)
Definition joblib_dump (obj : Artifacts) (path : string) : M unit := fun s =>
  match dump_faults s with
  | [] => (Ok tt, set_fs (<[path := Pickled obj]> (fs s)) s)
  | DumpOk :: rest =>
      (Ok tt, set_dump_faults rest (set_fs (<[path := Pickled obj]> (fs s)) s))
  | DumpFails false :: rest =>
      (Raise (OSError path), set_dump_faults rest s)
  | DumpFails true :: rest =>
      (Raise (OSError path), set_dump_faults rest (set_fs (<[path := Torn]> (fs s)) s))
  end.

(** ** integration.py: [DropoutPredictor] *)

Record DropoutPredictor := mkDropoutPredictor {
  model_artifacts : Artifacts;
  model : Model;
  scaler : Scaler;
  label_encoders : list (string * LabelEncoder);
  feature_names : list string
}.

(** [DropoutPredictor.__init__]; the handler logs and re-raises. *)
Definition DropoutPredictor_init (path : string) : M DropoutPredictor :=
  arts ← joblib_load path;
  m ← pure (getkey "model" (a_model arts));
  sc ← pure (getkey "scaler" (a_scaler arts));
  encs ← pure (getkey "label_encoders" (a_label_encoders arts));
  names ← pure (getkey "feature_names" (a_feature_names arts));
  mret (mkDropoutPredictor arts m sc encs names).

(** [series.apply(f)] for an [f] that may raise *)
Fixpoint series_apply {A B} (f : A -> res B) (xs : list A) : res (list B) :=
  match xs with
  | [] => Ok []
  | x :: rest => y ← f x; ys ← series_apply f rest; Ok (y :: ys)
  end.

(** The loop over [self.label_encoders.items()]. *)
Fixpoint encode_columns (encoders : list (string * LabelEncoder)) (df : DataFrame)
  : res DataFrame :=
  match encoders with
  | [] => Ok df
  | (col, encoder) :: rest =>
      if has_column col df then
        old ← getitem_col df col;
        known ← series_apply (fun x =>
                   if value_in x (classes_ encoder) then Ok x
                   else getitem (classes_ encoder) 0) old;
        let df1 := setitem_col col known df in
        cur ← getitem_col df1 col;
        codes ← encoder_transform encoder cur;
        encode_columns rest (setitem_col col codes df1)
      else encode_columns rest df
  end.

(** The loop that adds each absent feature as a column of zeros. *)
Fixpoint fill_missing (features : list string) (df : DataFrame) : DataFrame :=
  match features with
  | [] => df
  | feature :: rest =>
      fill_missing rest
        (if has_column feature df then df else setitem_scalar feature (VNum 0) df)
  end.

(** [preprocess_new_student]; the handler logs and re-raises. *)
Definition preprocess_new_student (self : DropoutPredictor)
    (student_data : gmap string value) : res DataFrame :=
  let df := of_record student_data in
  df ← encode_columns (label_encoders self) df;
  let df := fill_missing (feature_names self) df in
  getitem_cols df (feature_names self).

(** [predict_dropout_risk]; the handler logs and re-raises. *)
Definition predict_dropout_risk (self : DropoutPredictor)
    (student_data : gmap string value) : res (value * float * string) :=
  processed_data ← preprocess_new_student self student_data;
  scaled_data ← scaler_transform (scaler self) processed_data;
  predictions ← predict (model self) scaled_data;
  prediction ← getitem predictions 0;
  probabilities ← predict_proba (model self) scaled_data;
  row ← getitem probabilities 0;
  probability ← getitem row 1;
  let risk_level :=
    if (probability <? 0.3)%float then "Green"
    else if (probability <? 0.7)%float then "Amber"
    else "Red" in
  Ok (prediction, probability, risk_level).

(** The two shapes of dict that [predict_batch] appends to [results]. *)
Inductive result_entry :=
| Scored (student_id : value) (prediction : value) (probability : float)
         (risk_level : string) (timestamp : datetime)
| Failed (student_id : value) (error : string).

(** [student_data.get('student_id', 'unknown')] *)
Definition get_student_id (student_data : gmap string value) : value :=
  default (VStr "unknown") (student_data !! "student_id").

(** One turn of the loop of [predict_batch]. *)
Definition predict_batch_step (self : DropoutPredictor)
    (results : list result_entry) (student_data : gmap string value)
  : M (list result_entry) :=
  try_except
    ('(prediction, probability, risk_level) ←
        pure (predict_dropout_risk self student_data);
     let sid := get_student_id student_data in
     now ← datetime_now;
     mret (results ++ [Scored sid prediction probability risk_level now]))
    (fun e =>
       mret (results ++ [Failed (get_student_id student_data) (str e)])).

Fixpoint predict_batch_loop (self : DropoutPredictor)
    (students_data : list (gmap string value)) (results : list result_entry)
  : M (list result_entry) :=
  match students_data with
  | [] => mret results
  | student_data :: rest =>
      results ← predict_batch_step self results student_data;
      predict_batch_loop self rest results
  end.

Definition predict_batch (self : DropoutPredictor)
    (students_data : list (gmap string value)) : M (list result_entry) :=
  predict_batch_loop self students_data [].

(** ** real-time-monitoring.py: [RealTimeMonitor] *)

Record RealTimeMonitor := mkRealTimeMonitor {
  predictor : DropoutPredictor;
  high_risk_threshold : float
}.

(** [RealTimeMonitor.__init__] (the database connector and the notifier it
    also builds are not modelled as objects). *)
Definition RealTimeMonitor_init : M RealTimeMonitor :=
  p ← DropoutPredictor_init "student_dropout_model.pkl";
  mret (mkRealTimeMonitor p 0.7%float).

(** [r.get('probability', 0)] *)
Definition get_probability (r : result_entry) : float :=
  match r with
  | Scored _ _ probability _ _ => probability
  | Failed _ _ => 0%float
  end.

(** The f-string of [send_alerts]: the four keys it reads, in order. *)
Definition alert_text (student : result_entry) : res alert_message :=
  match student with
  | Scored sid _ probability risk_level timestamp =>
      Ok (mkAlertMessage sid probability risk_level timestamp)
  | Failed _ _ => Raise (KeyError "probability")
  end.

(** [NotificationSystem.send_alert]: hands the alert to the transport and
    never raises (it catches every exception of the transport).  The flag it
    returns, which [send_alerts] discards, is not modelled further. *)
Definition notifier_send_alert (recipient subject : string) (message : alert_message)
  : M bool := fun s =>
  (Ok true, set_outbox (outbox s ++ [mkAlert recipient subject message]) s).

Fixpoint send_alerts_loop (high_risk_students : list result_entry) : M unit :=
  match high_risk_students with
  | [] => mret tt
  | student :: rest =>
      message ← pure (alert_text student);
      _ ← notifier_send_alert "mentor@school.edu" "Student Dropout Risk Alert" message;
      send_alerts_loop rest
  end.

(** [send_alerts] *)
Definition send_alerts (self : RealTimeMonitor) (results : list result_entry) : M unit :=
  let high_risk_students :=
    filter (fun r => (high_risk_threshold self <? get_probability r)%float) results in
  send_alerts_loop high_risk_students.

(** ** model-maintaince.py: [ModelMaintenance] *)

(** [ModelMaintenance.__init__] *)
Definition ModelMaintenance_init (path : string) : ModelMaintenance :=
  mkModelMaintenance path [].

(** [self.model_path] *)
Definition self_model_path : M string := fun s => (Ok (model_path (maintenance s)), s).

(** [self.performance_history] *)
Definition self_performance_history : M (list performance) := fun s =>
  (Ok (performance_history (maintenance s)), s).

(** [self.performance_history.append(p)] *)
Definition performance_history_append (p : performance) : M unit := fun s =>
  (Ok tt,
   set_maintenance
     (mkModelMaintenance (model_path (maintenance s))
        (performance_history (maintenance s) ++ [p])) s).

(** The block under "Ensure feature names match", shared by the three
    methods: absent expected features become columns of zeros, then the
    columns are put in the expected order.  The source adds the absent
    features in the iteration order of a set; the selection that follows
    makes that order unobservable. *)
Definition match_feature_names (artifacts : Artifacts) (X : DataFrame) : res DataFrame :=
  match a_feature_names artifacts with
  | Some expected_features =>
      getitem_cols (fill_missing expected_features X) expected_features
  | None => Ok X
  end.

(** [check_model_drift]; both handlers log and return [False]. *)
Definition check_model_drift (new_data : DataFrame) (target_col : string) : M bool :=
  try_except
    (if empty new_data then mret false
     else if negb (has_column target_col new_data) then mret false
     else
       path ← self_model_path;
       model_artifacts ← joblib_load path;
       model ← pure (getkey "model" (a_model model_artifacts));
       scaler ← pure (getkey "scaler" (a_scaler model_artifacts));
       X_new ← pure (drop target_col new_data);
       y_new ← pure (getitem_col new_data target_col);
       X_new ← pure (match_feature_names model_artifacts X_new);
       X_new_scaled ← pure (scaler_transform scaler X_new);
       predictions ← pure (predict model X_new_scaled);
       accuracy ← pure (accuracy_score y_new predictions);
       f1 ← pure (f1_score y_new predictions);
       now ← datetime_now;
       let performance := mkPerformance now accuracy f1 (len new_data) in
       _ ← performance_history_append performance;
       history ← self_performance_history;
       if (1 <? length history)%nat then
         last_perf ← pure (getitem history (length history - 2));
         let accuracy_drop := (p_accuracy last_perf - accuracy)%float in
         if (0.05 <? accuracy_drop)%float then mret true else mret false
       else mret false)
    (fun _ => mret false).

(** [f"{self.model_path}.backup"] *)
Definition backup_path_of (path : string) : string := path +:+ ".backup".

(** [retrain_model]; both handlers log and re-raise. *)
Definition retrain_model (new_data : DataFrame) (target_col : string)
  : M (Model * float) :=
  if empty new_data then raise (ValueError "No new data provided for retraining")
  else if negb (has_column target_col new_data) then
    raise (ValueError ("Target column '" +:+ target_col +:+ "' not found in data"))
  else if (len new_data <? 10)%nat then
    raise (ValueError "Insufficient data for retraining (minimum 10 samples required)")
  else
    path ← self_model_path;
    old_artifacts ← joblib_load path;
    X ← pure (drop target_col new_data);
    y ← pure (getitem_col new_data target_col);
    X ← pure (match_feature_names old_artifacts X);
    '(X_train, X_test, y_train, y_test) ← pure (train_test_split X y);
    old_scaler ← pure (getkey "scaler" (a_scaler old_artifacts));
    let scaler := scaler_class_new old_scaler in
    '(scaler, X_train_scaled) ← pure (scaler_fit_transform scaler X_train);
    X_test_scaled ← pure (scaler_transform scaler X_test);
    new_model ← pure (GradientBoostingClassifier_fit X_train_scaled y_train);
    accuracy ← pure (score new_model X_test_scaled y_test);
    now ← datetime_now;
    let new_artifacts :=
      mkArtifacts (Some new_model) (Some scaler)
        (Some (default [] (a_label_encoders old_artifacts)))
        (Some (default (columns X) (a_feature_names old_artifacts)))
        (Some now) in
    path ← self_model_path;
    let backup_path := backup_path_of path in
    _ ← joblib_dump old_artifacts backup_path;
    path ← self_model_path;
    _ ← joblib_dump new_artifacts path;
    mret (new_model, accuracy).

(** [run_ab_test], from its first statement to the four metrics. *)
Definition ab_test_metrics (new_model : Model) (test_data : DataFrame)
    (target_col : string) : M (float * float * float * float) :=
  if empty test_data then raise (ValueError "No test data provided for A/B testing")
  else if negb (has_column target_col test_data) then
    raise (ValueError ("Target column '" +:+ target_col +:+ "' not found in test data"))
  else
    path ← self_model_path;
    old_artifacts ← joblib_load path;
    old_model ← pure (getkey "model" (a_model old_artifacts));
    scaler ← pure (getkey "scaler" (a_scaler old_artifacts));
    X_test ← pure (drop target_col test_data);
    y_test ← pure (getitem_col test_data target_col);
    X_test ← pure (match_feature_names old_artifacts X_test);
    X_test_scaled ← pure (scaler_transform scaler X_test);
    old_predictions ← pure (predict old_model X_test_scaled);
    new_predictions ← pure (predict new_model X_test_scaled);
    old_accuracy ← pure (accuracy_score y_test old_predictions);
    new_accuracy ← pure (accuracy_score y_test new_predictions);
    old_f1 ← pure (f1_score y_test old_predictions);
    new_f1 ← pure (f1_score y_test new_predictions);
    mret (old_accuracy, new_accuracy, old_f1, new_f1).

(** [run_ab_test]: the metrics, then the decision; both handlers log and
    return ["old"]. *)
Definition run_ab_test (new_model : Model) (test_data : DataFrame) (target_col : string)
  : M string :=
  try_except
    ('(old_accuracy, new_accuracy, old_f1, new_f1) ←
        ab_test_metrics new_model test_data target_col;
     if (old_accuracy + 0.02 <? new_accuracy)%float
        && (old_f1 + 0.02 <? new_f1)%float
     then mret "new"
     else mret "old")
    (fun _ => mret "old").

(** ** Predicates of the statements below *)

(** The entry that [predict_batch] owes a record: the scores of
    [predict_dropout_risk] under the record's id, or its error under that
    id. *)
Definition entry_for (self : DropoutPredictor) (student_data : gmap string value)
    (entry : result_entry) : Prop :=
  match predict_dropout_risk self student_data with
  | Ok (prediction, probability, risk_level) =>
      exists timestamp,
        entry = Scored (get_student_id student_data) prediction probability
                  risk_level timestamp
  | Raise e => entry = Failed (get_student_id student_data) (str e)
  end.

(** An entry without its timestamp. *)
Definition forget_timestamp (entry : result_entry) : result_entry :=
  match entry with
  | Scored sid prediction probability risk_level _ =>
      Scored sid prediction probability risk_level 0%Z
  | Failed sid error => Failed sid error
  end.

(** The keys of a record that batch scoring reads: the id, the features and
    the columns that have an encoder. *)
Definition read_keys (self : DropoutPredictor) : list string :=
  "student_id" :: feature_names self ++ (label_encoders self).*1.

(** Two records that hold the same under every key that scoring reads. *)
Definition same_inputs (self : DropoutPredictor) (d1 d2 : gmap string value) : Prop :=
  Forall (fun k => d1 !! k = d2 !! k) (read_keys self).

(** The timestamp of an entry, if it has one. *)
Definition entry_timestamp (entry : result_entry) : option datetime :=
  match entry with
  | Scored _ _ _ _ timestamp => Some timestamp
  | Failed _ _ => None
  end.

Definition timestamps (results : list result_entry) : list datetime :=
  omap entry_timestamp results.

(** The next [n] readings of a clock. *)
Fixpoint readings (n : nat) (ticks : list datetime) : list datetime :=
  match n with
  | O => []
  | S n => List.hd 0%Z ticks :: readings n (List.tl ticks)
  end.

(** The alert that an entry with probability above 0.7 gives rise to. *)
Definition alert_of (entry : result_entry) : option alert :=
  match entry with
  | Scored sid _ probability risk_level timestamp =>
      if (0.7 <? probability)%float then
        Some (mkAlert "mentor@school.edu" "Student Dropout Risk Alert"
                (mkAlertMessage sid probability risk_level timestamp))
      else None
  | Failed _ _ => None
  end.

End Lifecycle.

(** ** database_connector.py and the daily job of the monitor *)

Section Monitoring.
Context `{SK : Sklearn}.

(** A [DatabaseConnector]: what [pd.read_sql_query] gives on its connection
    for a query, a frame or an exception. *)
Record DatabaseConnector := mkDatabaseConnector {
  read_sql_query : string -> res DataFrame
}.

(** [DatabaseConnector.execute_query]: the handler logs and returns
    [pd.DataFrame()]. *)
Definition execute_query (self : DatabaseConnector) (query : string) : DataFrame :=
  match read_sql_query self query with
  | Ok df => df
  | Raise _ => mkDataFrame 0 []
  end.

(** The text bound to [query] in [fetch_new_data]. *)
Definition new_records_query : string := "
        SELECT * FROM student_records 
        WHERE last_updated > NOW() - INTERVAL '1 day'
        ".

(** [RealTimeMonitor.fetch_new_data]; [self.db_connector] is passed
    alongside the monitor. *)
Definition fetch_new_data (db_connector : DatabaseConnector) : DataFrame :=
  let query := new_records_query in
  execute_query db_connector query.

(** [df.to_dict('records')]: one dict per row, from column label to cell; of
    two columns with one label the later one stays. *)
Definition to_dict_records (df : DataFrame) : list (gmap string value) :=
  (fun i : nat =>
     list_to_map
       (reverse (omap (fun kv : string * list value =>
                         (fun v => (kv.1, v)) <$> kv.2 !! i) (data df))))
  <$> seq 0 (index_len df).

(** [RealTimeMonitor.save_predictions]: builds a frame of the results and
    logs its length; nothing is stored. *)
Definition save_predictions (results : list result_entry) : M unit := mret tt.

(** [RealTimeMonitor.process_daily_predictions]; the handler logs. *)
Definition process_daily_predictions (self : RealTimeMonitor)
    (db_connector : DatabaseConnector) : M unit :=
  try_except
    (let new_data := fetch_new_data db_connector in
     if negb (empty new_data) then
       let students_data := to_dict_records new_data in
       results ← predict_batch (predictor self) students_data;
       _ ← save_predictions results;
       send_alerts self results
     else mret tt)
    (fun _ => mret tt).

(** The alert that an entry with probability above a threshold gives rise
    to. *)
Definition alert_over (threshold : float) (entry : result_entry) : option alert :=
  match entry with
  | Scored sid _ probability risk_level timestamp =>
      if (threshold <? probability)%float then
        Some (mkAlert "mentor@school.edu" "Student Dropout Risk Alert"
                (mkAlertMessage sid probability risk_level timestamp))
      else None
  | Failed _ _ => None
  end.

(** The id under which an entry is filed. *)
Definition entry_id (entry : result_entry) : value :=
  match entry with
  | Scored sid _ _ _ _ => sid
  | Failed sid _ => sid
  end.

End Monitoring.

(** ** notification_system.py: [NotificationSystem]

    The notifier that [send_alerts] calls, with what it touches: the
    configuration file, the standard output and the SMTP server. *)

Module Notification.

(** What [json.load] returns. *)
#[warnings="-register-all"]
Inductive json :=
| JNull
| JBool (b : bool)
| JNum (x : float)
| JStr (s : string)
| JArray (xs : list json)
| JObject (kvs : list (string * json)).

(** The truth value of a loaded value, as [if] and [and] test it. *)
Definition truthy (j : json) : bool :=
  match j with
  | JNull => false
  | JBool b => b
  | JNum x => negb (x =? 0)%float
  | JStr s => negb (String.eqb s "")
  | JArray xs => negb (length xs =? 0)%nat
  | JObject kvs => negb (length kvs =? 0)%nat
  end.

(** The dict of a loaded object: of two members with one name the later
    one stays. *)
Definition dict_of (kvs : list (string * json)) : gmap string json :=
  list_to_map (reverse kvs).

Definition default_config : gmap string json :=
  list_to_map
    [ ("smtp_server", JStr "smtp.gmail.com");
      ("smtp_port", JNum 587);
      ("email", JStr "");
      ("password", JStr "");
      ("recipients", JArray [JStr "admin@school.edu"]);
      ("enable_email", JBool false);
      ("enable_console", JBool true) ].

(** The configuration file as [load_config] finds it: absent, present but
    failing to open or to parse, or parsed. *)
Inductive config_file :=
| Absent
| Unreadable
| Parsed (j : json).

(** [load_config]: [{**default_config, **config}] raises for a [config]
    that is no dict; the handler logs that and the defaults are returned. *)
Definition load_config (file : config_file) : gmap string json :=
  match file with
  | Parsed (JObject kvs) => dict_of kvs ∪ default_config
  | _ => default_config
  end.

Record NotificationSystem := mkNotificationSystem {
  config : gmap string json;
  smtp_server : json;
  smtp_port : json;
  email : json;
  password : json;
  recipients : json
}.

(** [self.config.get(key, default)] *)
Definition config_get (config : gmap string json) (key : string) (dflt : json) : json :=
  default dflt (config !! key).

(** [NotificationSystem.__init__] *)
Definition NotificationSystem_init (file : config_file) : NotificationSystem :=
  let config := load_config file in
  mkNotificationSystem config
    (config_get config "smtp_server" (JStr "smtp.gmail.com"))
    (config_get config "smtp_port" (JNum 587))
    (config_get config "email" (JStr ""))
    (config_get config "password" (JStr ""))
    (config_get config "recipients" (JArray [])).

(** A mail handed to the SMTP server: sender, recipient, subject, text. *)
Record mail := mkMail {
  mail_from : json;
  mail_to : string;
  mail_subject : string;
  mail_text : string
}.

(** How the [try] block of [send_email_alert] ends: it runs to its
    [return True]; [sendmail] delivers the mail and a later statement
    ([quit]) raises; or a statement before the delivery raises. *)
Inductive smtp_outcome :=
| Sent
| SentThenRaised
| NotSent.

(** The world of the notifier: the texts the standard output can encode
    ([print] raises [UnicodeEncodeError] for the others), what was printed,
    how the coming SMTP sessions end, and the mails that were delivered. *)
Record world := mkWorld {
  stdout_encodes : string -> bool;
  console : list string;
  smtp_sessions : list smtp_outcome;
  delivered : list mail
}.

(** [s * n] *)
Fixpoint str_mul (s : string) (n : nat) : string :=
  match n with
  | O => ""
  | S n => s +:+ str_mul s n
  end.

Definition newline : string := String (Ascii.ascii_of_nat 10) "".

(** A standard output that encodes ASCII only. *)
Fixpoint ascii_only (text : string) : bool :=
  match text with
  | EmptyString => true
  | String c rest => Nat.ltb (Ascii.nat_of_ascii c) 128 && ascii_only rest
  end.

(** [print(text)]: [false] stands for the exception. *)
Definition print (text : string) (w : world) : bool * world :=
  if stdout_encodes w text
  then (true, mkWorld (stdout_encodes w) (console w ++ [text])
                (smtp_sessions w) (delivered w))
  else (false, w).

(** Statements of [print] in sequence; the first that raises ends them. *)
Fixpoint print_all (texts : list string) (w : world) : bool * world :=
  match texts with
  | [] => (true, w)
  | text :: rest =>
      let '(ok, w) := print text w in
      if ok then print_all rest w else (false, w)
  end.

(** The eight texts [send_console_alert] prints. *)
Definition console_block (recipient subject message : string) : list string :=
  [ newline +:+ str_mul "=" 60;
    "🚨 ALERT NOTIFICATION";
    str_mul "=" 60;
    "To: " +:+ recipient;
    "Subject: " +:+ subject;
    str_mul "-" 60;
    message;
    str_mul "=" 60 +:+ newline ].

(** [send_console_alert] *)
Definition send_console_alert (recipient subject message : string) (w : world)
  : bool * world :=
  print_all (console_block recipient subject message) w.

(** [send_email_alert]: a session that goes through delivers the mail and
    gives [True]; when a statement raises, the handler gives [False], whether
    the mail was delivered by then or not.  With no session left the server
    is not reached. *)
Definition send_email_alert (self : NotificationSystem)
    (recipient subject message : string) (w : world) : bool * world :=
  match smtp_sessions w with
  | Sent :: rest =>
      (true, mkWorld (stdout_encodes w) (console w) rest
               (delivered w ++ [mkMail (email self) recipient subject message]))
  | SentThenRaised :: rest =>
      (false, mkWorld (stdout_encodes w) (console w) rest
                (delivered w ++ [mkMail (email self) recipient subject message]))
  | NotSent :: rest =>
      (false, mkWorld (stdout_encodes w) (console w) rest (delivered w))
  | [] => (false, w)
  end.

(** The test [self.config.get('enable_email', False) and self.email and
    self.password]. *)
Definition email_enabled (self : NotificationSystem) : bool :=
  truthy (config_get (config self) "enable_email" (JBool false))
  && truthy (email self) && truthy (password self).

(** [send_alert]: an exception of the console ends it with [False], before
    the mail is tried. *)
Definition send_alert (self : NotificationSystem)
    (recipient subject message : string) (w : world) : bool * world :=
  let '(printed, w) :=
    if truthy (config_get (config self) "enable_console" (JBool true))
    then send_console_alert recipient subject message w
    else (true, w) in
  if printed then
    if email_enabled self
    then send_email_alert self recipient subject message w
    else (true, w)
  else (false, w).

(** The loop of [send_batch_alerts], with the count so far. *)
Fixpoint send_batch_alerts_loop (self : NotificationSystem)
    (alerts : list (gmap string string)) (success_count : nat) (w : world)
  : nat * world :=
  match alerts with
  | [] => (success_count, w)
  | alert :: rest =>
      let '(sent, w) :=
        send_alert self
          (default "admin@school.edu" (alert !! "recipient"))
          (default "Student Dropout Alert" (alert !! "subject"))
          (default "" (alert !! "message")) w in
      send_batch_alerts_loop self rest
        (if sent then success_count + 1 else success_count) w
  end.

(** [send_batch_alerts] *)
Definition send_batch_alerts (self : NotificationSystem)
    (alerts : list (gmap string string)) (w : world) : nat * world :=
  send_batch_alerts_loop self alerts 0 w.

End Notification.

(** ** A small scikit-learn, to run the code on concrete data

    Classifiers are stumps that read one column: the cell is the probability
    of class 1, the other class 0 has the rest, and the prediction is the
    likelier class.
    The scaler leaves numbers as they are and rejects text; encoders number
    their classes; metrics count over the rows. *)

Module Stump.

Definition all_numeric (df : DataFrame) : bool :=
  forallb (fun kv => forallb (fun v => match v with VNum _ => true | VStr _ => false end)
                       kv.2) (data df).

Definition transform (_ : unit) (X : DataFrame) : res DataFrame :=
  if all_numeric X then Ok X
  else Raise (ValueError "could not convert string to float").

Definition fit_transform (sc : unit) (X : DataFrame) : res (unit * DataFrame) :=
  X' ← transform sc X; Ok (sc, X').

Definition stump_predict (c : string) (X : DataFrame) : res (list value) :=
  col ← getitem_col X c;
  Ok (map (fun v => match v with
                     | VNum x => VNum (if (0.5 <=? x)%float then 1 else 0)
                     | VStr _ => v
                     end) col).

Definition stump_predict_proba (c : string) (X : DataFrame) : res (list (list float)) :=
  col ← getitem_col X c;
  series_apply (fun v => match v with
                  | VNum x => Ok [(1 - x)%float; x]
                  | VStr _ => Raise (ValueError "not a number")
                  end) col.

Fixpoint index_of (x : value) (xs : list value) : option nat :=
  match xs with
  | [] => None
  | y :: rest => if value_eqb x y then Some 0 else S <$> index_of x rest
  end.

Definition encode (classes : list value) (col : list value) : res (list value) :=
  series_apply (fun x => match index_of x classes with
                  | Some i => Ok (VNum (float_of_nat i))
                  | None => Raise (ValueError "y contains previously unseen labels")
                  end) col.

(** How many rows have true label [t] and predicted label [p]. *)
Fixpoint count_pairs (t p : value) (y_true y_pred : list value) : nat :=
  match y_true, y_pred with
  | a :: ys, b :: ps =>
      (if value_eqb a t && value_eqb b p then 1 else 0) + count_pairs t p ys ps
  | _, _ => 0
  end.

Fixpoint count_equal (y_true y_pred : list value) : nat :=
  match y_true, y_pred with
  | a :: ys, b :: ps => (if value_eqb a b then 1 else 0) + count_equal ys ps
  | _, _ => 0
  end.

Definition accuracy (y_true y_pred : list value) : res float :=
  if (length y_true =? length y_pred)%nat then
    Ok (float_of_nat (count_equal y_true y_pred) / float_of_nat (length y_true))%float
  else Raise (ValueError "inconsistent numbers of samples").

Definition f1 (y_true y_pred : list value) : res float :=
  if (length y_true =? length y_pred)%nat then
    let tp := count_pairs (VNum 1) (VNum 1) y_true y_pred in
    let fp := count_pairs (VNum 0) (VNum 1) y_true y_pred in
    let fn := count_pairs (VNum 1) (VNum 0) y_true y_pred in
    if (2 * tp + fp + fn =? 0)%nat then Ok 0%float
    else Ok (float_of_nat (2 * tp) / float_of_nat (2 * tp + fp + fn))%float
  else Raise (ValueError "inconsistent numbers of samples").

Definition stump_score (c : string) (X : DataFrame) (y : list value) : res float :=
  p ← stump_predict c X; accuracy y p.

(** Fitting picks the first column. *)
Definition fit (X : DataFrame) (y : list value) : res string :=
  match columns X with
  | c :: _ => Ok c
  | [] => Raise (ValueError "at least one feature is required")
  end.

Definition rows (from count : nat) (df : DataFrame) : DataFrame :=
  mkDataFrame (Nat.min count (index_len df - from))
    ((fun kv => (kv.1, take count (List.skipn from kv.2))) <$> data df).

Definition count_label (v : value) (y : list value) : nat :=
  length (filter (fun w => value_eqb v w) y).

(** The first fifth of the rows is the test split; as with [stratify=y], a
    class with a single member is refused. *)
Definition split (X : DataFrame) (y : list value)
  : res (DataFrame * DataFrame * list value * list value) :=
  let n := index_len X in
  let k := n / 5 in
  if (k =? 0)%nat then Raise (ValueError "the test split would be empty")
  else if existsb (fun v => (count_label v y <? 2)%nat) y then
    Raise (ValueError "The least populated class in y has only 1 member")
  else Ok (rows k (n - k) X, rows 0 k X, List.skipn k y, take k y).

#[global] Instance sklearn : Sklearn := {|
  Model := string;
  Scaler := unit;
  LabelEncoder := list value;
  ndarray := DataFrame;
  classes_ := fun classes => classes;
  encoder_transform := encode;
  scaler_transform := transform;
  scaler_class_new := fun sc => sc;
  scaler_fit_transform := fit_transform;
  predict := stump_predict;
  predict_proba := stump_predict_proba;
  score := stump_score;
  GradientBoostingClassifier_fit := fit;
  accuracy_score := accuracy;
  f1_score := f1;
  train_test_split := split
|}.

(** A frame from its rows, each row listing the cells in column order. *)
Definition frame (names : list string) (rws : list (list value)) : DataFrame :=
  mkDataFrame (length rws)
    (imap (fun i c => (c, (fun r => default (VNum 0) (r !! i)) <$> rws)) names).

Definition num (x : float) : value := VNum x.

End Stump.

(** ** Concrete artifacts, records and batches *)

Module Scenario.
Import Stump.

Definition encoders : list (string * list value) :=
  [("gender", [VStr "F"; VStr "M"])].

Definition features : list string := ["gender"; "attendance_rate"; "risk"].

(** An artifact whose classifier reads the column ["risk"]. *)
Definition artifact : Artifacts :=
  mkArtifacts (Some "risk") (Some tt) (Some encoders) (Some features) None.

Definition dropout_predictor : DropoutPredictor :=
  mkDropoutPredictor artifact "risk" tt encoders features.

Definition student (sid : string) (attendance risk : value) : gmap string value :=
  <["student_id" := VStr sid]>
    (<["gender" := VStr "M"]>
       (<["attendance_rate" := attendance]> (<["risk" := risk]> ∅))).

(** Five records; the third has text where a number is due. *)
Definition five_records : list (gmap string value) :=
  [ student "STU1" (num 0.95) (num 0.1);
    student "STU2" (num 0.80) (num 0.5);
    student "STU3" (VStr "n/a") (num 0.2);
    student "STU4" (num 0.60) (num 0.9);
    student "STU5" (num 0.70) (num 0.7) ].

Definition monitor : RealTimeMonitor := mkRealTimeMonitor dropout_predictor 0.7.

(** The incumbent of the maintenance runs reads ["old_pred"]; a candidate
    reads ["new_pred"]. *)
Definition incumbent : Artifacts :=
  mkArtifacts (Some "old_pred") (Some tt) (Some []) (Some ["old_pred"; "new_pred"]) None.

Definition path : string := "student_dropout_model.pkl".

Definition state_at (history : list performance) (ticks : list datetime) : state :=
  mkState (mkModelMaintenance path history) {[ path := Pickled incumbent ]} [] ticks [].

Definition initial : state := state_at [] [1; 2; 3; 4; 5]%Z.

Definition bit (b : bool) : value := num (if b then 1 else 0).

(** Rows [(label, old_pred, new_pred)], each repeated. *)
Definition labelled (groups : list (nat * (bool * bool * bool))) : DataFrame :=
  frame ["is_active"; "old_pred"; "new_pred"]
    (groups ≫= fun g => replicate g.1 [bit g.2.1.1; bit g.2.1.2; bit g.2.2]).

(** Batches on which the incumbent is right on 9 of 10, 21 of 25 and 43 of
    50 rows. *)
Definition batch_090 : DataFrame := labelled [(9, (true, true, true)); (1, (false, true, true))].
Definition batch_084 : DataFrame := labelled [(21, (true, true, true)); (4, (false, true, true))].
Definition batch_086 : DataFrame := labelled [(43, (true, true, true)); (7, (false, true, true))].

(** 4800 rows: incumbent accuracy 0.77 and F1 0.68, candidate accuracy 0.80
    and F1 0.70. *)
Definition test_margin_002 : DataFrame :=
  labelled [(1120, (true, true, true)); (53, (true, true, false)); (907, (false, true, true));
            (197, (false, true, false)); (2523, (false, false, false))].

(** 1600 rows: incumbent accuracy 0.77 and F1 0.68, candidate accuracy 0.80
    and F1 0.68. *)
Definition test_margin_000 : DataFrame :=
  labelled [(340, (true, true, true)); (51, (true, true, false)); (269, (false, true, true));
            (99, (false, true, false)); (841, (false, false, false))].

(** 200 rows: incumbent accuracy 0.75 and F1 0.5, candidate accuracy 0.80
    and F1 0.6. *)
Definition test_margin_clear : DataFrame :=
  labelled [(25, (true, true, true)); (5, (true, false, true)); (20, (true, false, false));
            (15, (false, true, true)); (5, (false, false, true)); (10, (false, true, false)); (120, (false, false, false))].

(** Ten rows for retraining, five of each class. *)
Definition training_batch : DataFrame :=
  labelled [(5, (true, true, true)); (5, (false, false, false))].

Definition five_rows : DataFrame := labelled [(3, (true, true, true)); (2, (false, false, false))].

Definition no_rows : DataFrame := labelled [].

Definition unlabelled : DataFrame :=
  frame ["old_pred"; "new_pred"] [[num 1; num 1]; [num 0; num 0]].

(** What the store of student records answers: the five records as rows. *)
Definition student_rows : DataFrame :=
  frame ["student_id"; "gender"; "attendance_rate"; "risk"]
    [ [VStr "STU1"; VStr "M"; num 0.95; num 0.1];
      [VStr "STU2"; VStr "M"; num 0.80; num 0.5];
      [VStr "STU3"; VStr "M"; VStr "n/a"; num 0.2];
      [VStr "STU4"; VStr "M"; num 0.60; num 0.9];
      [VStr "STU5"; VStr "M"; num 0.70; num 0.7] ].

Definition database : DatabaseConnector :=
  mkDatabaseConnector (fun _ => Ok student_rows).

Definition failing_database : DatabaseConnector :=
  mkDatabaseConnector (fun _ => Raise (Exception "no such table: student_records")).

(** A record with an unknown gender and no attendance rate. *)
Definition without_attendance : gmap string value :=
  <["student_id" := VStr "STU6"]>
    (<["gender" := VStr "X"]> (<["risk" := num 0.4]> ∅)).

(** A predictor whose gender encoder was fitted on no class. *)
Definition predictor_without_classes : DropoutPredictor :=
  mkDropoutPredictor artifact "risk" tt [("gender", [])] features.

(** The initial state without any file. *)
Definition no_store : state := set_fs ∅ initial.

(** A predictor whose classifier reads the column ["p_active"]: as with a
    classifier fitted on the label [is_active], class 1 is the active
    student and class 0 the one who drops out. *)
Definition activity_predictor : DropoutPredictor :=
  mkDropoutPredictor
    (mkArtifacts (Some "p_active") (Some tt) (Some []) (Some ["p_active"]) None)
    "p_active" tt [] ["p_active"].

(** A student whom that classifier gives one chance in ten of staying. *)
Definition likely_dropout : gmap string value :=
  <["student_id" := VStr "STU7"]> (<["p_active" := num 0.1]> ∅).

(** A connector whose engine refuses the query of the daily job and
    answers every other query with the five rows. *)
Definition database_without_now : DatabaseConnector :=
  mkDatabaseConnector (fun query =>
    if String.eqb query new_records_query
    then Raise (Exception "Execution failed on sql")
    else Ok student_rows).

(** The record of [STU5] with one more field, which scoring does not
    read. *)
Definition student_with_mentor : gmap string value :=
  <["mentor_id" := VStr "M12"]> (student "STU5" (num 0.70) (num 0.7)).

End Scenario.

(** ** Stepping through the monad *)

(** Unfolds the monad, leaving the [match]es on the results of the calls. *)
Ltac unfold_M :=
  unfold try_except, mbind, M_bind, mret, M_ret, pure, raise, self_model_path,
    self_performance_history, performance_history_append, datetime_now, joblib_load;
  simpl.

(** Case analysis on the next call whose result is scrutinised. *)
Ltac next_call :=
  match goal with
  | |- context [match ?r with Ok _ => _ | Raise _ => _ end] =>
      lazymatch r with
      | context [match _ with _ => _ end] => fail
      | getitem _ _ => fail
      | _ => destruct r eqn:?; simpl
      end
  | |- context [match ?m !! ?k with Some _ => _ | None => _ end] =>
      destruct (m !! k) as [[?|]|] eqn:?; simpl
  | |- context [let '(_, _) := ?p in _] => is_var p; destruct p; simpl
  end.

(** Case analysis on how the next dump ends. *)
Ltac next_dump :=
  match goal with
  | |- context [match ?l with [] => _ | _ :: _ => _ end] =>
      is_var l; destruct l as [|[|[|]] ?]; simpl
  end.

(** * Properties *)

(** ** Comparisons of binary64 numbers *)

Lemma SFcompare_antisym (x y : spec_float) :
  SFcompare y x = CompOpp <$> SFcompare x y.
Proof.
  destruct x as [sx|sx| |sx mx ex], y as [sy|sy| |sy my ey]; simpl;
    try (destruct sx); try (destruct sy); try reflexivity.
  - rewrite (Z.compare_antisym ey ex). destruct (ey ?= ex)%Z; simpl; try reflexivity.
    f_equal. rewrite (Pos.compare_cont_antisym mx my Eq). reflexivity.
  - rewrite (Z.compare_antisym ey ex). destruct (ey ?= ex)%Z; simpl; try reflexivity.
    f_equal. symmetry. apply (Pos.compare_cont_antisym mx my Eq).
Qed.

Lemma float_le_not_lt (x y : float) :
  (x <=? y)%float = true -> (y <? x)%float = false.
Proof.
  rewrite FloatAxioms.leb_spec, FloatAxioms.ltb_spec. unfold SFleb, SFltb.
  rewrite (SFcompare_antisym (Prim2SF x) (Prim2SF y)).
  destruct (SFcompare (Prim2SF x) (Prim2SF y)) as [[]|]; simpl; congruence.
Qed.

Lemma float_lt_not_lt (x y : float) :
  (x <? y)%float = true -> (y <? x)%float = false.
Proof.
  rewrite !FloatAxioms.ltb_spec. unfold SFltb.
  rewrite (SFcompare_antisym (Prim2SF x) (Prim2SF y)).
  destruct (SFcompare (Prim2SF x) (Prim2SF y)) as [[]|]; simpl; congruence.
Qed.

Lemma SFcompare_total (x y : spec_float) :
  x <> S754_nan -> y <> S754_nan -> is_Some (SFcompare x y).
Proof.
  destruct x as [sx|sx| |sx mx ex], y as [sy|sy| |sy my ey]; simpl;
    intros; try congruence; eauto.
Qed.

(** [x == x] holds of every float but NaN. *)
Lemma float_not_nan (x : float) : (x =? x)%float = true -> Prim2SF x <> S754_nan.
Proof.
  rewrite FloatAxioms.eqb_spec. intros H E. rewrite E in H. discriminate.
Qed.

Lemma float_not_lt_le (x y : float) :
  (x =? x)%float = true -> (y =? y)%float = true ->
  (x <? y)%float = false -> (y <=? x)%float = true.
Proof.
  intros Hx%float_not_nan Hy%float_not_nan.
  rewrite FloatAxioms.leb_spec, FloatAxioms.ltb_spec. unfold SFleb, SFltb.
  rewrite (SFcompare_antisym (Prim2SF x) (Prim2SF y)).
  destruct (SFcompare_total _ _ Hx Hy) as [c ->]. destruct c; simpl; congruence.
Qed.

Lemma SFcompare_lt_trans (x y z : spec_float) :
  SFcompare x y = Some Lt -> SFcompare y z = Some Lt -> SFcompare x z = Some Lt.
Proof.
  destruct x as [[]|[]| |[] mx ex], y as [[]|[]| |[] my ey], z as [[]|[]| |[] mz ez];
    simpl; try congruence;
    rewrite ?Pos.compare_cont_spec; unfold Pos.switch_Eq;
    repeat match goal with
           | |- context [(?a ?= ?b)%Z] => destruct (Z.compare_spec a b)
           | |- context [(?a ?= ?b)%positive] => destruct (Pos.compare_spec a b)
           end; simpl; try congruence; try lia.
Qed.

Lemma float_lt_trans (x y z : float) :
  (x <? y)%float = true -> (y <? z)%float = true -> (x <? z)%float = true.
Proof.
  rewrite !FloatAxioms.ltb_spec. unfold SFltb.
  destruct (SFcompare (Prim2SF x) (Prim2SF y)) as [[]|] eqn:Hxy; try discriminate.
  destruct (SFcompare (Prim2SF y) (Prim2SF z)) as [[]|] eqn:Hyz; try discriminate.
  now rewrite (SFcompare_lt_trans _ _ _ Hxy Hyz).
Qed.

(** ** Paths *)

Lemma string_length_app (a b : string) :
  String.length (a +:+ b) = String.length a + String.length b.
Proof. induction a as [|c a IH]; simpl; [reflexivity | now rewrite IH]. Qed.

Lemma backup_path_fresh (path : string) : backup_path_of path <> path.
Proof.
  unfold backup_path_of. intros E. apply (f_equal String.length) in E.
  rewrite string_length_app in E. simpl in E. lia.
Qed.

Section Properties.
Context `{SK : Sklearn}.

Lemma res_bind_Ok {A B} (r : res A) (k : A -> res B) (b : B) :
  r ≫= k = Ok b -> exists a, r = Ok a /\ k a = Ok b.
Proof. destruct r; simpl; [eauto | discriminate]. Qed.

(** The band that [predict_dropout_risk] returns is the cascade of its two
    comparisons. *)
Lemma predict_dropout_risk_band (self : DropoutPredictor)
    (student_data : gmap string value) (prediction : value) (p : float)
    (risk_level : string) :
  predict_dropout_risk self student_data = Ok (prediction, p, risk_level) ->
  risk_level = if (p <? 0.3)%float then "Green"
               else if (p <? 0.7)%float then "Amber" else "Red".
Proof.
  unfold predict_dropout_risk. intros H.
  repeat (apply res_bind_Ok in H as (? & _ & H)).
  injection H as _ -> <-. reflexivity.
Qed.

(** ** The batch loop and the alerts *)

(** The constructor of the monitor fixes the alert threshold at 0.7. *)
Lemma RealTimeMonitor_init_threshold (s s' : state) (self : RealTimeMonitor) :
  RealTimeMonitor_init s = (Ok self, s') -> high_risk_threshold self = 0.7%float.
Proof.
  unfold RealTimeMonitor_init, mbind, M_bind, mret, M_ret.
  destruct (DropoutPredictor_init _ s) as [[p|e] s0]; [|discriminate].
  now intros [= <- _].
Qed.

Lemma state_eta (s : state) :
  mkState (maintenance s) (fs s) (dump_faults s) (clock s) (outbox s) = s.
Proof. destruct s; reflexivity. Qed.

(** One turn of the batch loop appends exactly the entry owed to the record,
    and touches nothing but the clock. *)
Lemma predict_batch_step_spec (self : DropoutPredictor) (results : list result_entry)
    (student_data : gmap string value) (s : state) :
  exists entry ticks,
    predict_batch_step self results student_data s
      = (Ok (results ++ [entry]), set_clock ticks s) /\
    entry_for self student_data entry.
Proof.
  unfold predict_batch_step, try_except, entry_for, pure, mbind, M_bind, mret, M_ret,
    datetime_now.
  destruct (predict_dropout_risk self student_data) as [[[prediction p] level]|e]; simpl.
  - eexists _, _. split; [reflexivity | eauto].
  - exists (Failed (get_student_id student_data) (str e)), (clock s).
    split; [|reflexivity]. unfold set_clock. now rewrite state_eta.
Qed.

Lemma predict_batch_loop_spec (self : DropoutPredictor)
    (students_data : list (gmap string value)) :
  forall (results : list result_entry) (s : state),
  exists entries ticks,
    predict_batch_loop self students_data results s
      = (Ok (results ++ entries), set_clock ticks s) /\
    Forall2 (entry_for self) students_data entries.
Proof.
  induction students_data as [|student_data rest IH]; intros results s; simpl.
  - exists [], (clock s). rewrite app_nil_r. split; [|constructor].
    unfold mret, M_ret, set_clock. now rewrite state_eta.
  - destruct (predict_batch_step_spec self results student_data s)
      as (entry & ticks & Hstep & Hentry).
    destruct (IH (results ++ [entry]) (set_clock ticks s))
      as (entries & ticks' & Hloop & Hall).
    exists (entry :: entries), ticks'. split; [|now constructor].
    unfold mbind, M_bind. rewrite Hstep, Hloop.
    now rewrite <- app_assoc.
Qed.

Lemma send_alerts_spec (self : RealTimeMonitor) (results : list result_entry) :
  high_risk_threshold self = 0.7%float ->
  forall s : state,
    send_alerts self results s
      = (Ok tt, set_outbox (outbox s ++ omap alert_of results) s).
Proof.
  intros Hthreshold. unfold send_alerts. rewrite Hthreshold.
  induction results as [|entry rest IH]; intros s; simpl.
  - unfold mret, M_ret, set_outbox. now rewrite app_nil_r, state_eta.
  - rewrite filter_cons. destruct entry as [sid prediction p level t|sid err]; simpl.
    + destruct (0.7 <? p)%float eqn:Hp; simpl.
      * unfold mbind, M_bind, pure, notifier_send_alert. simpl.
        rewrite IH. simpl. now rewrite <- app_assoc.
      * apply IH.
    + apply IH.
Qed.

(** ** Drift checks, retraining and the A/B test *)

Lemma history_long (h : list performance) (prev p : performance) :
  (1 <? length ((h ++ [prev]) ++ [p]))%nat = true.
Proof. rewrite !length_app. simpl. apply Nat.ltb_lt. lia. Qed.

Lemma history_previous (h : list performance) (prev p : performance) :
  getitem ((h ++ [prev]) ++ [p]) (length ((h ++ [prev]) ++ [p]) - 2) = Ok prev.
Proof.
  unfold getitem. rewrite <- app_assoc, length_app. simpl.
  replace (length h + 2 - 2) with (length h + 0) by lia.
  now rewrite lookup_app_r, Nat.add_0_r, Nat.sub_diag by lia.
Qed.

Lemma check_model_drift_cases (new_data : DataFrame) (target_col : string) (s : state) :
  check_model_drift new_data target_col s = (Ok false, s) \/
  exists accuracy f1,
    check_model_drift new_data target_col s
    = (Ok match last (performance_history (maintenance s)) with
          | Some last_perf => (0.05 <? p_accuracy last_perf - accuracy)%float
          | None => false
          end,
       set_maintenance
         (mkModelMaintenance (model_path (maintenance s))
            (performance_history (maintenance s)
               ++ [mkPerformance (List.hd 0%Z (clock s)) accuracy f1 (len new_data)]))
         (set_clock (List.tl (clock s)) s)).
Proof.
  destruct s as [[path h] files faults ticks sent].
  unfold check_model_drift.
  destruct (empty new_data); [left; reflexivity|].
  destruct (negb (has_column target_col new_data)); [left; reflexivity|].
  unfold_M.
  repeat (next_call; try (left; reflexivity)).
  right. eexists _, _.
  destruct h as [|prev h _] using rev_ind.
  - reflexivity.
  - rewrite history_long, history_previous, last_snoc. simpl.
    match goal with |- context [(?a <? ?b)%float] => destruct (a <? b)%float end;
      reflexivity.
Qed.

Lemma ab_test_metrics_state (new_model : Model) (test_data : DataFrame)
    (target_col : string) (s : state) :
  (ab_test_metrics new_model test_data target_col s).2 = s.
Proof.
  unfold ab_test_metrics.
  destruct (empty test_data); [reflexivity|].
  destruct (negb (has_column target_col test_data)); [reflexivity|].
  unfold_M. repeat (next_call; try reflexivity).
Qed.

(** What a retraining that returned has done. *)
Lemma retrain_model_success (new_data : DataFrame) (target_col : string)
    (s s' : state) (new_model : Model) (accuracy : float) :
  retrain_model new_data target_col s = (Ok (new_model, accuracy), s') ->
  let path := model_path (maintenance s) in
  (empty new_data = false /\ has_column target_col new_data = true /\
   (10 <= len new_data)%nat) /\
  (exists X_train_scaled y_train X_test_scaled y_test,
     GradientBoostingClassifier_fit X_train_scaled y_train = Ok new_model /\
     score new_model X_test_scaled y_test = Ok accuracy) /\
  exists old_artifacts new_artifacts,
    fs s !! path = Some (Pickled old_artifacts) /\
    a_model new_artifacts = Some new_model /\
    a_label_encoders new_artifacts
      = Some (default [] (a_label_encoders old_artifacts)) /\
    a_retrained_at new_artifacts = Some (List.hd 0%Z (clock s)) /\
    fs s' = <[path := Pickled new_artifacts]>
              (<[backup_path_of path := Pickled old_artifacts]> (fs s)) /\
    maintenance s' = maintenance s /\ outbox s' = outbox s.
Proof.
  destruct s as [[path h] files faults ticks sent]. simpl.
  unfold retrain_model.
  destruct (empty new_data); [discriminate|].
  destruct (has_column target_col new_data); [|discriminate]. simpl.
  destruct (len new_data <? 10)%nat eqn:Hlen; [discriminate|].
  apply Nat.ltb_ge in Hlen.
  unfold_M.
  repeat (next_call; try discriminate).
  unfold joblib_dump; simpl.
  next_dump; try discriminate; unfold set_fs, set_dump_faults; simpl;
    try next_dump; try discriminate; simpl.
  all: intros [= <- <- <-]; simpl.
  all: split; [auto|]; split; [do 4 eexists; split; eassumption|].
  all: eexists _, (mkArtifacts _ _ _ _ _); split; [reflexivity|]; simpl.
  all: repeat split; reflexivity.
Qed.

End Properties.

(** ** Frames and their columns *)

Lemma has_column_assoc (c : string) (df : DataFrame) :
  has_column c df = true <-> is_Some (assoc c (data df)).
Proof.
  unfold has_column, columns. destruct df as [n kvs]. simpl.
  induction kvs as [|[k v] kvs IH]; simpl.
  - split; [discriminate | intros [? [=]]].
  - destruct (String.eqb c k); simpl; [split; eauto | exact IH].
Qed.

Lemma has_column_false_assoc (c : string) (df : DataFrame) :
  has_column c df = false <-> assoc c (data df) = None.
Proof.
  rewrite <- not_true_iff_false, has_column_assoc, <- eq_None_not_Some. reflexivity.
Qed.

Lemma has_column_elem_of (c : string) (df : DataFrame) :
  has_column c df = true <-> c ∈ columns df.
Proof.
  unfold has_column. rewrite existsb_exists. split.
  - intros (x & Hin & ->%String.eqb_eq). now apply list_elem_of_In.
  - intros Hin. exists c. split; [now apply list_elem_of_In | apply String.eqb_refl].
Qed.

Lemma assoc_assign_eq (c : string) (col : list value) (kvs : list (string * list value)) :
  assoc c (assign c col kvs) = Some col.
Proof.
  induction kvs as [|[k v] kvs IH]; simpl.
  - now rewrite String.eqb_refl.
  - destruct (String.eqb c k) eqn:E; simpl; rewrite E; [reflexivity | exact IH].
Qed.

Lemma assoc_assign_ne (c c' : string) (col : list value) (kvs : list (string * list value)) :
  c <> c' -> assoc c' (assign c col kvs) = assoc c' kvs.
Proof.
  intros Hne. induction kvs as [|[k v] kvs IH]; simpl.
  - destruct (String.eqb c' c) eqn:E; [|reflexivity].
    apply String.eqb_eq in E. congruence.
  - destruct (String.eqb c k) eqn:E; simpl.
    + apply String.eqb_eq in E. subst k.
      destruct (String.eqb c' c) eqn:E'; [|reflexivity].
      apply String.eqb_eq in E'. congruence.
    + now rewrite IH.
Qed.

Lemma assign_columns_present (c : string) (col : list value) (kvs : list (string * list value)) :
  is_Some (assoc c kvs) -> (assign c col kvs).*1 = kvs.*1.
Proof.
  induction kvs as [|[k v] kvs IH]; simpl.
  - intros [? [=]].
  - destruct (String.eqb c k) eqn:E; simpl; [reflexivity|].
    intros H. f_equal. apply IH, H.
Qed.

Lemma select_cols_spec (names : list string) (kvs : list (string * list value)) :
  match select_cols names kvs with
  | Ok cols =>
      cols.*1 = names /\
      forall c, c ∈ names -> assoc c cols = assoc c kvs
  | Raise e => exists c, c ∈ names /\ assoc c kvs = None
  end.
Proof.
  induction names as [|c names IH]; simpl.
  - split; [reflexivity|]. intros c []%elem_of_nil.
  - destruct (assoc c kvs) as [col|] eqn:Hc.
    + destruct (select_cols names kvs) as [cols|e]; simpl.
      * destruct IH as [Hnames Hassoc]. split; [f_equal; exact Hnames|].
        intros c' Hin. destruct (String.eqb c' c) eqn:E.
        -- apply String.eqb_eq in E. now subst c'.
        -- apply elem_of_cons in Hin as [->|Hin]; [|now apply Hassoc].
           now rewrite String.eqb_refl in E.
      * destruct IH as (c' & Hin & Hnone). exists c'. split; [now right | exact Hnone].
    + exists c. split; [now left | exact Hc].
Qed.

Lemma fill_missing_index_len (features : list string) (df : DataFrame) :
  index_len (fill_missing features df) = index_len df.
Proof.
  revert df. induction features as [|f features IH]; intros df; simpl; [reflexivity|].
  rewrite IH. now destruct (has_column f df).
Qed.

(** After the loop every column is the one the frame had, or zeros if the
    frame lacked it and it was asked for. *)
Lemma fill_missing_assoc (features : list string) (df : DataFrame) (c : string) :
  assoc c (data (fill_missing features df))
  = match assoc c (data df) with
    | Some col => Some col
    | None =>
        if bool_decide (c ∈ features)
        then Some (replicate (index_len df) (VNum 0)) else None
    end.
Proof.
  revert df. induction features as [|f features IH]; intros df; simpl.
  - now destruct (assoc c (data df)).
  - rewrite IH. destruct (has_column f df) eqn:Hf.
    + destruct (assoc c (data df)) as [col|] eqn:Hc; [reflexivity|].
      destruct (decide (c = f)) as [->|Hne].
      * apply has_column_assoc in Hf as [? Hf]. congruence.
      * rewrite !bool_decide_decide. destruct (decide (c ∈ features)) as [Hin|Hin].
        -- rewrite decide_True by now right. reflexivity.
        -- rewrite decide_False; [reflexivity|]. intros [->|?]%elem_of_cons; tauto.
    + apply has_column_false_assoc in Hf. simpl.
      destruct (decide (c = f)) as [->|Hne].
      * rewrite assoc_assign_eq, Hf. rewrite bool_decide_true by now left.
        reflexivity.
      * rewrite assoc_assign_ne by congruence.
        destruct (assoc c (data df)) as [col|]; [reflexivity|].
        rewrite !bool_decide_decide. destruct (decide (c ∈ features)) as [Hin|Hin].
        -- rewrite decide_True by now right. reflexivity.
        -- rewrite decide_False; [reflexivity|]. intros [->|?]%elem_of_cons; tauto.
Qed.

Lemma getitem_cols_fill_missing (features : list string) (df : DataFrame) :
  exists out,
    getitem_cols (fill_missing features df) features = Ok out /\
    columns out = features /\
    index_len out = index_len df /\
    forall c, c ∈ features ->
      assoc c (data out)
      = Some (default (replicate (index_len df) (VNum 0)) (assoc c (data df))).
Proof.
  unfold getitem_cols.
  pose proof (select_cols_spec features (data (fill_missing features df))) as H.
  destruct (select_cols features (data (fill_missing features df))) as [cols|e]; simpl.
  - destruct H as [Hnames Hassoc]. eexists. split; [reflexivity|]. simpl.
    split; [exact Hnames|]. split; [apply fill_missing_index_len|].
    intros c Hin. rewrite (Hassoc c Hin), fill_missing_assoc.
    destruct (assoc c (data df)); simpl; [reflexivity|].
    now rewrite bool_decide_true.
  - destruct H as (c & Hin & Hnone). rewrite fill_missing_assoc in Hnone.
    destruct (assoc c (data df)); [discriminate|].
    now rewrite bool_decide_true in Hnone.
Qed.

Lemma assoc_NoDup (c : string) (col : list value) (kvs : list (string * list value)) :
  NoDup kvs.*1 -> (assoc c kvs = Some col <-> (c, col) ∈ kvs).
Proof.
  induction kvs as [|[k v] kvs IH]; simpl; intros Hnd.
  - split; [discriminate | intros []%elem_of_nil].
  - apply NoDup_cons in Hnd as [Hk Hnd]. destruct (String.eqb c k) eqn:E.
    + apply String.eqb_eq in E. subst k. split.
      * intros [= ->]. now left.
      * intros [[= ->]|Hin]%elem_of_cons; [reflexivity|].
        exfalso. apply Hk. apply list_elem_of_fmap. now exists (c, col).
    + rewrite (IH Hnd). split; [now right|].
      intros [[= -> ->]|Hin]%elem_of_cons; [|exact Hin].
      now rewrite String.eqb_refl in E.
Qed.

(** [pd.DataFrame([d])[c]] is the one cell [d[c]]. *)
Lemma assoc_of_record (d : gmap string value) (c : string) :
  assoc c (data (of_record d)) = (fun v => [v]) <$> d !! c.
Proof.
  unfold of_record. simpl.
  set (kvs := (fun kv : string * value => (kv.1, [kv.2])) <$> map_to_list d).
  assert (Hnd : NoDup kvs.*1).
  { unfold kvs. rewrite <- list_fmap_compose.
    replace (fst ∘ _) with (@fst string value) by reflexivity.
    apply NoDup_fst_map_to_list. }
  destruct (d !! c) as [v|] eqn:Hd; simpl.
  - apply (assoc_NoDup _ _ _ Hnd). unfold kvs. apply list_elem_of_fmap.
    exists (c, v). split; [reflexivity|]. now apply elem_of_map_to_list.
  - destruct (assoc c kvs) as [col|] eqn:Ha; [|reflexivity].
    apply (assoc_NoDup _ _ _ Hnd) in Ha. unfold kvs in Ha.
    apply list_elem_of_fmap in Ha as ([k v] & [= -> ->] & Hin).
    apply elem_of_map_to_list in Hin. simpl in Hin. congruence.
Qed.




(** ** The feature codec: [preprocess_new_student] *)

Section Codec.
Context `{SK : Sklearn}.

(** The encoding loop keeps the rows and the columns of the frame, and the
    cells of every column that has no encoder. *)
Lemma encode_columns_frame (encoders : list (string * LabelEncoder)) :
  forall df df' : DataFrame,
    encode_columns encoders df = Ok df' ->
    index_len df' = index_len df /\
    columns df' = columns df /\
    forall c, c ∉ encoders.*1 -> assoc c (data df') = assoc c (data df).
Proof.
  induction encoders as [|[col encoder] rest IH]; intros df df'; simpl.
  - intros [= <-]. auto.
  - destruct (has_column col df) eqn:Hcol.
    + intros H.
      apply res_bind_Ok in H as (old & _ & H).
      apply res_bind_Ok in H as (known & _ & H).
      apply res_bind_Ok in H as (cur & _ & H).
      apply res_bind_Ok in H as (codes & _ & H).
      apply IH in H as (Hlen & Hcols & Hassoc). simpl in *.
      apply has_column_assoc in Hcol.
      split; [exact Hlen|]. split.
      * rewrite Hcols. unfold columns. simpl.
        rewrite assign_columns_present.
        -- now apply assign_columns_present.
        -- rewrite assoc_assign_eq. eauto.
      * intros c Hc. apply not_elem_of_cons in Hc as [Hne Hc].
        rewrite (Hassoc c Hc). simpl. rewrite !assoc_assign_ne by congruence.
        reflexivity.
    + intros H. apply IH in H as (Hlen & Hcols & Hassoc).
      split; [exact Hlen|]. split; [exact Hcols|].
      intros c Hc. apply not_elem_of_cons in Hc as [_ Hc]. now apply Hassoc.
Qed.

Lemma encode_columns_has_column (encoders : list (string * LabelEncoder))
    (df df' : DataFrame) (c : string) :
  encode_columns encoders df = Ok df' -> has_column c df' = has_column c df.
Proof.
  intros (_ & Hcols & _)%encode_columns_frame. unfold has_column. now rewrite Hcols.
Qed.

(** What the loop does to the column of one of its encoders. *)
Lemma encode_columns_at (encoders : list (string * LabelEncoder))
    (col : string) (encoder : LabelEncoder) :
  NoDup encoders.*1 -> (col, encoder) ∈ encoders ->
  forall (df : DataFrame) (cells : list value),
    assoc col (data df) = Some cells ->
    match encode_columns encoders df with
    | Ok df' =>
        exists known codes,
          series_apply (fun x => if value_in x (classes_ encoder) then Ok x
                                 else getitem (classes_ encoder) 0) cells = Ok known /\
          encoder_transform encoder known = Ok codes /\
          assoc col (data df') = Some codes
    | Raise _ => True
    end.
Proof.
  induction encoders as [|[c enc] rest IH]; simpl; intros Hnd Hin df cells Hcells.
  - now apply elem_of_nil in Hin.
  - apply NoDup_cons in Hnd as [Hc Hnd].
    apply elem_of_cons in Hin as [[= <- <-]|Hin].
    + assert (Hhas : has_column col df = true) by (apply has_column_assoc; eauto).
      assert (Hold : getitem_col df col = Ok cells)
        by (unfold getitem_col; now rewrite Hcells).
      rewrite Hhas, Hold. simpl.
      destruct (series_apply _ cells) as [known|e] eqn:Hknown; simpl; [|exact I].
      assert (Hcur : getitem_col (setitem_col col known df) col = Ok known)
        by (unfold getitem_col; simpl; now rewrite assoc_assign_eq).
      rewrite Hcur. simpl.
      destruct (encoder_transform encoder known) as [codes|e] eqn:Hcodes; simpl;
        [|exact I].
      destruct (encode_columns rest _) as [df'|e] eqn:Hrest; [|exact I].
      apply encode_columns_frame in Hrest as (_ & _ & Hassoc).
      exists known, codes. repeat split; [exact Hcodes|].
      rewrite (Hassoc col Hc). simpl. apply assoc_assign_eq.
    + assert (Hne : c <> col).
      { intros ->. apply Hc. apply list_elem_of_fmap. now exists (col, encoder). }
      destruct (has_column c df); [|now apply IH].
      destruct (getitem_col df c) as [old|e]; simpl; [|exact I].
      destruct (series_apply _ old) as [known|e]; simpl; [|exact I].
      destruct (getitem_col _ c) as [cur|e]; simpl; [|exact I].
      destruct (encoder_transform enc cur) as [codes|e]; simpl; [|exact I].
      apply IH; [assumption..|]. simpl. now rewrite !assoc_assign_ne.
Qed.

Lemma preprocess_new_student_cases (self : DropoutPredictor)
    (student_data : gmap string value) :
  match encode_columns (label_encoders self) (of_record student_data) with
  | Ok encoded =>
      exists df,
        preprocess_new_student self student_data = Ok df /\
        columns df = feature_names self /\
        index_len df = 1 /\
        forall c, c ∈ feature_names self ->
          assoc c (data df)
          = Some (default [VNum 0] (assoc c (data encoded)))
  | Raise e => preprocess_new_student self student_data = Raise e
  end.
Proof.
  unfold preprocess_new_student.
  destruct (encode_columns _ _) as [encoded|e] eqn:Henc; simpl; [|reflexivity].
  destruct (getitem_cols_fill_missing (feature_names self) encoded)
    as (out & Hout & Hcols & Hlen & Hassoc).
  apply encode_columns_frame in Henc as (Hlen' & _ & _).
  rewrite Hlen' in Hlen, Hassoc. simpl in *.
  exists out. repeat split; assumption.
Qed.

End Codec.

(** ** What scoring reads *)

Section Inputs.
Context `{SK : Sklearn}.

Lemma has_column_of_assoc (c : string) (df : DataFrame) :
  has_column c df = match assoc c (data df) with Some _ => true | None => false end.
Proof.
  destruct (assoc c (data df)) as [col|] eqn:Hc.
  - apply has_column_assoc. rewrite Hc. eauto.
  - now apply has_column_false_assoc.
Qed.

Lemma select_cols_ext (names : list string) (kvs kvs' : list (string * list value)) :
  (forall c, c ∈ names -> assoc c kvs = assoc c kvs') ->
  select_cols names kvs = select_cols names kvs'.
Proof.
  induction names as [|c names IH]; intros H; simpl; [reflexivity|].
  rewrite <- (H c) by now left.
  destruct (assoc c kvs); [|reflexivity].
  rewrite IH; [reflexivity|]. intros c' Hin. apply H. now right.
Qed.

(** The encoding loop reads and writes the columns of its encoders only:
    on two frames that agree on a set of columns holding those, it fails
    alike or gives frames that agree on the set. *)
Lemma encode_columns_ext (keys : list string) (encoders : list (string * LabelEncoder)) :
  encoders.*1 ⊆ keys ->
  forall df1 df2 : DataFrame,
    index_len df1 = index_len df2 ->
    (forall c, c ∈ keys -> assoc c (data df1) = assoc c (data df2)) ->
    match encode_columns encoders df1, encode_columns encoders df2 with
    | Ok out1, Ok out2 =>
        index_len out1 = index_len out2 /\
        forall c, c ∈ keys -> assoc c (data out1) = assoc c (data out2)
    | Raise e1, Raise e2 => e1 = e2
    | _, _ => False
    end.
Proof.
  induction encoders as [|[col encoder] rest IH]; intros Hsub df1 df2 Hlen Hdata; simpl.
  - auto.
  - assert (Hcol : col ∈ keys) by (apply Hsub; now left).
    assert (Hrest : rest.*1 ⊆ keys) by (intros c Hc; apply Hsub; now right).
    rewrite !has_column_of_assoc. unfold getitem_col.
    rewrite <- (Hdata col Hcol).
    destruct (assoc col (data df1)) as [old|]; simpl; [|now apply IH].
    destruct (series_apply _ old) as [known|e]; simpl; [|reflexivity].
    rewrite !assoc_assign_eq. simpl.
    destruct (encoder_transform encoder known) as [codes|e]; simpl; [|reflexivity].
    apply IH; [exact Hrest | exact Hlen |]. simpl.
    intros c Hc. destruct (decide (col = c)) as [<-|Hne].
    + now rewrite !assoc_assign_eq.
    + rewrite !assoc_assign_ne by assumption. now apply Hdata.
Qed.

(** Preprocessing reads a record under the features and the encoded
    columns only. *)
Lemma preprocess_new_student_ext (self : DropoutPredictor)
    (d1 d2 : gmap string value) :
  (forall k, k ∈ feature_names self ++ (label_encoders self).*1 -> d1 !! k = d2 !! k) ->
  preprocess_new_student self d1 = preprocess_new_student self d2.
Proof.
  intros Hsame. unfold preprocess_new_student.
  pose proof (encode_columns_ext (feature_names self ++ (label_encoders self).*1)
                (label_encoders self)
                (fun c Hc => proj2 (elem_of_app _ _ c) (or_intror Hc))
                (of_record d1) (of_record d2) eq_refl) as H.
  destruct (encode_columns (label_encoders self) (of_record d1)) as [out1|e1],
           (encode_columns (label_encoders self) (of_record d2)) as [out2|e2];
    simpl.
  - destruct H as [Hlen Hdata].
    { intros c Hc. rewrite !assoc_of_record. now rewrite (Hsame c Hc). }
    unfold getitem_cols.
    rewrite (select_cols_ext (feature_names self)
               (data (fill_missing (feature_names self) out1))
               (data (fill_missing (feature_names self) out2))).
    + now rewrite !fill_missing_index_len, Hlen.
    + intros c Hc. rewrite !fill_missing_assoc, Hlen.
      rewrite (Hdata c) by (apply elem_of_app; now left). reflexivity.
  - destruct H. intros c Hc. rewrite !assoc_of_record. now rewrite (Hsame c Hc).
  - destruct H. intros c Hc. rewrite !assoc_of_record. now rewrite (Hsame c Hc).
  - f_equal. apply H. intros c Hc. rewrite !assoc_of_record. now rewrite (Hsame c Hc).
Qed.

Lemma same_inputs_scores (self : DropoutPredictor) (d1 d2 : gmap string value) :
  same_inputs self d1 d2 ->
  get_student_id d1 = get_student_id d2 /\
  predict_dropout_risk self d1 = predict_dropout_risk self d2.
Proof.
  unfold same_inputs, read_keys. rewrite Forall_cons, Forall_forall.
  intros [Hid Hsame]. split.
  - unfold get_student_id. now rewrite Hid.
  - unfold predict_dropout_risk.
    now rewrite (preprocess_new_student_ext self d1 d2 Hsame).
Qed.

Lemma same_inputs_entries (self : DropoutPredictor)
    (records1 records2 : list (gmap string value)) :
  Forall2 (same_inputs self) records1 records2 ->
  forall results1 results2,
    Forall2 (entry_for self) records1 results1 ->
    Forall2 (entry_for self) records2 results2 ->
    forget_timestamp <$> results1 = forget_timestamp <$> results2.
Proof.
  induction 1 as [|d1 d2 rest1 rest2 Hsame _ IH]; intros results1 results2 H1 H2.
  - inversion H1; inversion H2; reflexivity.
  - inversion H1 as [|? e1 ? r1 He1 Hr1]; inversion H2 as [|? e2 ? r2 He2 Hr2]; subst.
    simpl. f_equal; [|now apply IH].
    destruct (same_inputs_scores self d1 d2 Hsame) as [Hid Hscore].
    unfold entry_for in He1, He2. rewrite Hid, Hscore in He1.
    destruct (predict_dropout_risk self d2) as [[[prediction p] level]|e].
    + destruct He1 as [t1 ->], He2 as [t2 ->]. reflexivity.
    + now subst.
Qed.

(** The timestamps of a batch are the readings that it took from the
    clock, one per record scored. *)
Lemma predict_batch_loop_clock (self : DropoutPredictor)
    (students_data : list (gmap string value)) :
  forall (results : list result_entry) (s : state),
  exists entries,
    predict_batch_loop self students_data results s
      = (Ok (results ++ entries),
         set_clock (skipn (length (timestamps entries)) (clock s)) s) /\
    Forall2 (entry_for self) students_data entries /\
    timestamps entries = readings (length (timestamps entries)) (clock s).
Proof.
  induction students_data as [|student_data rest IH]; intros results s; simpl.
  - exists []. rewrite app_nil_r. simpl. split; [|split; [constructor|reflexivity]].
    now destruct s.
  - unfold mbind, M_bind, predict_batch_step, try_except, pure, mret, M_ret,
      datetime_now.
    destruct (predict_dropout_risk self student_data) as [[[prediction p] level]|e] eqn:Hr;
      simpl.
    + destruct (IH (results ++ [Scored (get_student_id student_data) prediction p level
                                  (List.hd 0%Z (clock s))])
                  (set_clock (List.tl (clock s)) s)) as (entries & Hloop & Hall & Hts).
      exists (Scored (get_student_id student_data) prediction p level
                (List.hd 0%Z (clock s)) :: entries).
      rewrite Hloop, <- app_assoc.
      unfold timestamps in *. simpl in *.
      split; [|split].
      * f_equal. unfold set_clock. simpl. f_equal.
        now destruct (clock s); rewrite ?skipn_nil.
      * constructor; [|exact Hall]. unfold entry_for. rewrite Hr. eauto.
      * f_equal. exact Hts.
    + destruct (IH (results ++ [Failed (get_student_id student_data) (str e)]) s)
        as (entries & Hloop & Hall & Hts).
      exists (Failed (get_student_id student_data) (str e) :: entries).
      rewrite Hloop, <- app_assoc.
      unfold timestamps in *. simpl in *.
      split; [reflexivity|]. split; [|exact Hts].
      constructor; [|exact Hall]. unfold entry_for. now rewrite Hr.
Qed.

End Inputs.

(** * The predictor *)

(** C9, as the code has it.  The number that [predict_dropout_risk] bands
    is entry 1 of the row of [predict_proba], the probability of class 1.
    For a classifier of the label [is_active], class 1 is the active
    student: on a record that the classifier puts in class 0, the dropout,
    with probability 0.9, the code returns the probability 0.1 and the band
    Green, the Low band, where the dropout probability 0.9 is in the High
    band. *)
Lemma band_of_likely_dropout_is_green :
  let self := Scenario.activity_predictor in
  let record := Scenario.likely_dropout in
  exists scaled,
    preprocess_new_student self record ≫= scaler_transform (scaler self) = Ok scaled /\
    predict (model self) scaled = Ok [VNum 0] /\
    predict_proba (model self) scaled = Ok [[0.9; 0.1]%float] /\
    predict_dropout_risk self record = Ok (VNum 0, 0.1%float, "Green").
Proof.
  eexists. split; [vm_compute; reflexivity|].
  repeat split; vm_compute; reflexivity.
Qed.

(** C6. [predict_batch] returns one entry per record, in order: the scores
    of the record under its id when [predict_dropout_risk] succeeds on it,
    and otherwise an error entry under its id, the rest of the batch being
    scored all the same.  Of five records of which the third is malformed,
    four are scored and one is an error entry. *)
Theorem predict_batch_isolates_failures :
  (forall (SK : Sklearn) (self : DropoutPredictor)
          (students_data : list (gmap string value)) (s : state),
     exists results s',
       predict_batch self students_data s = (Ok results, s') /\
       length results = length students_data /\
       Forall2 (entry_for self) students_data results) /\
  (predict_batch Scenario.dropout_predictor Scenario.five_records Scenario.initial).1
  = Ok [ Scored (VStr "STU1") (VNum 0) 0.1 "Green" 1%Z;
         Scored (VStr "STU2") (VNum 1) 0.5 "Amber" 2%Z;
         Failed (VStr "STU3") "could not convert string to float";
         Scored (VStr "STU4") (VNum 1) 0.9 "Red" 3%Z;
         Scored (VStr "STU5") (VNum 1) 0.7 "Red" 4%Z ].
Proof.
  split; [|vm_compute; reflexivity].
  intros SK self students_data s.
  destruct (predict_batch_loop_spec self students_data [] s)
    as (entries & ticks & Hloop & Hall).
  exists entries, (set_clock ticks s). repeat split; [exact Hloop| |exact Hall].
  symmetry. eapply Forall2_length, Hall.
Qed.

(** C10, as the code has it: scoring the same record twice in one batch
    gives two entries that differ, in their timestamps. *)
Lemma batch_entries_differ_in_timestamp :
  let record := Scenario.student "STU5" (VNum 0.70) (VNum 0.7) in
  exists first second,
    (predict_batch Scenario.dropout_predictor [record; record] Scenario.initial).1
      = Ok [first; second] /\
    first <> second.
Proof.
  eexists _, _. split; [vm_compute; reflexivity|]. discriminate.
Qed.

(** C10, amended. Batch scoring never raises, and each of its entries
    carries the scores that [predict_dropout_risk] gives for the record, or
    its error.  The entries depend on the predictor and on what the records
    hold under the keys that scoring reads, and on nothing else: two batches
    of records that agree under these keys, the same batch in particular,
    scored in any two states, give entries that agree in every field but the
    timestamp.  The timestamps are the readings of the clock, one taken for
    each record scored, in order; and batch scoring changes nothing in the
    state but the clock. *)
Theorem scoring_deterministic_up_to_timestamp `{SK : Sklearn}
    (self : DropoutPredictor) (records1 records2 : list (gmap string value))
    (s1 s2 : state) :
  Forall2 (same_inputs self) records1 records2 ->
  exists results1 results2,
    predict_batch self records1 s1
      = (Ok results1, set_clock (skipn (length (timestamps results1)) (clock s1)) s1) /\
    predict_batch self records2 s2
      = (Ok results2, set_clock (skipn (length (timestamps results2)) (clock s2)) s2) /\
    Forall2 (entry_for self) records1 results1 /\
    Forall2 (entry_for self) records2 results2 /\
    forget_timestamp <$> results1 = forget_timestamp <$> results2 /\
    timestamps results1 = readings (length (timestamps results1)) (clock s1) /\
    timestamps results2 = readings (length (timestamps results2)) (clock s2).
Proof.
  intros Hsame.
  destruct (predict_batch_loop_clock self records1 [] s1) as (results1 & Hrun1 & Hall1 & Hts1).
  destruct (predict_batch_loop_clock self records2 [] s2) as (results2 & Hrun2 & Hall2 & Hts2).
  exists results1, results2. repeat split; try assumption.
  eapply same_inputs_entries; eassumption.
Qed.

Lemma scoring_deterministic_up_to_timestamp_witness :
  let record := Scenario.student "STU5" (VNum 0.70) (VNum 0.7) in
  let self := Scenario.dropout_predictor in
  let s1 := Scenario.initial in
  let s2 := Scenario.state_at [] [10; 20]%Z in
  exists results1 results2,
    predict_batch self [record; record] s1
      = (Ok results1, set_clock (skipn (length (timestamps results1)) (clock s1)) s1) /\
    predict_batch self [record; Scenario.student_with_mentor] s2
      = (Ok results2, set_clock (skipn (length (timestamps results2)) (clock s2)) s2) /\
    Forall2 (entry_for self) [record; record] results1 /\
    Forall2 (entry_for self) [record; Scenario.student_with_mentor] results2 /\
    forget_timestamp <$> results1 = forget_timestamp <$> results2 /\
    timestamps results1 = readings (length (timestamps results1)) (clock s1) /\
    timestamps results2 = readings (length (timestamps results2)) (clock s2).
Proof.
  apply (scoring_deterministic_up_to_timestamp Scenario.dropout_predictor
           [Scenario.student "STU5" (VNum 0.70) (VNum 0.7);
            Scenario.student "STU5" (VNum 0.70) (VNum 0.7)]
           [Scenario.student "STU5" (VNum 0.70) (VNum 0.7);
            Scenario.student_with_mentor]
           Scenario.initial (Scenario.state_at [] [10; 20]%Z)).
  repeat (apply List.Forall2_cons); try apply List.Forall2_nil.
  all: unfold same_inputs; simpl read_keys.
  all: repeat (apply List.Forall_cons; [vm_compute; reflexivity|]); apply List.Forall_nil.
Defined.

(** * The monitor *)

(** C8, as the code has it: a record scored at probability 0.7 is in the
    Red band, and [send_alerts] sends nothing for it. *)
Lemma no_alert_at_threshold :
  let record := Scenario.student "STU5" (VNum 0.70) (VNum 0.7) in
  let results := [Scored (VStr "STU5") (VNum 1) 0.7 "Red" 1%Z] in
  (predict_batch Scenario.dropout_predictor [record] Scenario.initial).1 = Ok results /\
  send_alerts Scenario.monitor results Scenario.initial = (Ok tt, Scenario.initial).
Proof. split; vm_compute; reflexivity. Qed.

(** C8, amended. For a monitor with the threshold 0.7 of its constructor
    and the results of a batch, [send_alerts] hands the notifier one alert
    per entry whose probability is strictly above 0.7, in order, and nothing
    else: entries in the Green or Amber band and error entries give no
    alert, and neither does an entry whose probability is not above 0.7. *)
Theorem alerts_above_threshold `{SK : Sklearn} (self : RealTimeMonitor)
    (students_data : list (gmap string value)) (s s' : state)
    (results : list result_entry) :
  high_risk_threshold self = 0.7%float ->
  predict_batch (predictor self) students_data s = (Ok results, s') ->
  (forall s0 : state,
     send_alerts self results s0
       = (Ok tt, set_outbox (outbox s0 ++ omap alert_of results) s0)) /\
  (forall entry, entry ∈ results ->
     match entry with
     | Scored sid prediction p risk_level timestamp =>
         (risk_level = "Green" \/ risk_level = "Amber" -> alert_of entry = None) /\
         ((0.7 <? p)%float = false -> alert_of entry = None) /\
         ((0.7 <? p)%float = true ->
            risk_level = "Red" /\
            alert_of entry
              = Some (mkAlert "mentor@school.edu" "Student Dropout Risk Alert"
                        (mkAlertMessage sid p risk_level timestamp)))
     | Failed _ _ => alert_of entry = None
     end).
Proof.
  intros Hthreshold Hbatch. split.
  - intros s0. now apply send_alerts_spec.
  - destruct (predict_batch_loop_spec (predictor self) students_data [] s)
      as (entries & ticks & Hloop & Hall).
    unfold predict_batch in Hbatch. rewrite Hloop in Hbatch.
    injection Hbatch as <- _. simpl.
    intros entry Hin.
    apply list_elem_of_lookup in Hin as [i Hi].
    destruct (Forall2_lookup_r _ _ _ _ _ Hall Hi) as (student_data & _ & Hentry).
    unfold entry_for in Hentry.
    destruct (predict_dropout_risk (predictor self) student_data)
      as [[[prediction p] level]|e] eqn:Hrisk.
    + destruct Hentry as [timestamp ->]. simpl.
      apply predict_dropout_risk_band in Hrisk.
      assert (H37 : (0.3 <? 0.7)%float = true) by reflexivity.
      destruct (p <? 0.3)%float eqn:H3; [|destruct (p <? 0.7)%float eqn:H7]; subst level.
      * pose proof (float_lt_trans p 0.3%float 0.7%float H3 H37) as H7.
        apply float_lt_not_lt in H7. rewrite H7.
        repeat split; auto; discriminate.
      * apply float_lt_not_lt in H7. rewrite H7.
        repeat split; auto; discriminate.
      * destruct (0.7 <? p)%float; repeat split; auto; try discriminate.
        all: intros [|]; discriminate.
    + subst entry. reflexivity.
Qed.

Lemma alerts_above_threshold_witness :
  let results :=
    [ Scored (VStr "STU1") (VNum 0) 0.1 "Green" 1%Z;
      Scored (VStr "STU2") (VNum 1) 0.5 "Amber" 2%Z;
      Failed (VStr "STU3") "could not convert string to float";
      Scored (VStr "STU4") (VNum 1) 0.9 "Red" 3%Z;
      Scored (VStr "STU5") (VNum 1) 0.7 "Red" 4%Z ] in
  high_risk_threshold Scenario.monitor = 0.7%float /\
  send_alerts Scenario.monitor results Scenario.initial
  = (Ok tt,
     set_outbox
       [mkAlert "mentor@school.edu" "Student Dropout Risk Alert"
          (mkAlertMessage (VStr "STU4") 0.9 "Red" 3%Z)]
       Scenario.initial).
Proof.
  split; [reflexivity|].
  refine (proj1 (alerts_above_threshold Scenario.monitor Scenario.five_records
                   Scenario.initial
                   (predict_batch Scenario.dropout_predictor Scenario.five_records
                      Scenario.initial).2
                   _ _ _) Scenario.initial).
  - reflexivity.
  - vm_compute; reflexivity.
Defined.

(** * Model maintenance *)

(** C5. On a batch that is empty, lacks the target column or has fewer than
    ten rows, [retrain_model] raises [ValueError] (its insufficient-data
    error) and leaves the whole state as it was: no file of the store, active
    or backup, is written. *)
Theorem retrain_insufficient_data `{SK : Sklearn} (new_data : DataFrame)
    (target_col : string) (s : state) :
  empty new_data = true \/ has_column target_col new_data = false \/
    (len new_data < 10)%nat ->
  exists msg, retrain_model new_data target_col s = (Raise (ValueError msg), s).
Proof.
  unfold retrain_model. intros H.
  destruct (empty new_data) eqn:He; [eexists; reflexivity|].
  destruct (has_column target_col new_data) eqn:Hc; [|eexists; reflexivity].
  destruct H as [H | [H | H]]; try discriminate.
  apply Nat.ltb_lt in H. simpl. rewrite H. eexists; reflexivity.
Qed.

Lemma retrain_insufficient_data_witness :
  (len Scenario.five_rows < 10)%nat /\
  exists msg,
    retrain_model Scenario.five_rows "is_active" Scenario.initial
    = (Raise (ValueError msg), Scenario.initial).
Proof.
  split; [vm_compute; lia|].
  apply (retrain_insufficient_data Scenario.five_rows "is_active" Scenario.initial).
  right; right. vm_compute; lia.
Defined.

(** C7, as the code has it: on a batch without rows, and on a batch without
    the label column, [check_model_drift] does not raise; it returns the
    verdict [False]. *)
Lemma drift_check_invalid_input_not_an_error :
  check_model_drift Scenario.no_rows "is_active" Scenario.initial
    = (Ok false, Scenario.initial) /\
  check_model_drift Scenario.unlabelled "is_active" Scenario.initial
    = (Ok false, Scenario.initial) /\
  ~ (forall (new_data : DataFrame) (target_col : string) (s : state),
       empty new_data = true \/ has_column target_col new_data = false ->
       exists e, (check_model_drift new_data target_col s).1 = Raise e).
Proof.
  repeat split; try (vm_compute; reflexivity).
  intros H.
  destruct (H Scenario.no_rows "is_active" Scenario.initial) as [e He].
  - left. reflexivity.
  - vm_compute in He. discriminate.
Qed.

(** C7, amended. On a batch that is empty or lacks the label column,
    [check_model_drift] returns the verdict [False] and leaves the state as
    it was: no snapshot is appended to the performance history. *)
Theorem drift_check_invalid_input `{SK : Sklearn} (new_data : DataFrame)
    (target_col : string) (s : state) :
  empty new_data = true \/ has_column target_col new_data = false ->
  check_model_drift new_data target_col s = (Ok false, s).
Proof.
  unfold check_model_drift. intros [H | H].
  - rewrite H. reflexivity.
  - rewrite H. destruct (empty new_data); reflexivity.
Qed.

Lemma drift_check_invalid_input_witness :
  has_column "is_active" Scenario.unlabelled = false /\
  check_model_drift Scenario.unlabelled "is_active" Scenario.initial
  = (Ok false, Scenario.initial).
Proof.
  split; [reflexivity|].
  apply (drift_check_invalid_input Scenario.unlabelled "is_active" Scenario.initial).
  right. reflexivity.
Defined.

(** C4, as the code has it: after checks with accuracies 0.90 and then 0.84
    the history holds two snapshots whose accuracies drop by more than 0.05;
    a further check, on an empty batch, leaves the history as it is and
    reports no drift. *)
Lemma drift_unreported_without_new_snapshot :
  let s1 := (check_model_drift Scenario.batch_090 "is_active" Scenario.initial).2 in
  let s2 := (check_model_drift Scenario.batch_084 "is_active" s1).2 in
  let r3 := check_model_drift Scenario.no_rows "is_active" s2 in
  exists previous current,
    performance_history (maintenance r3.2) = [previous; current] /\
    p_accuracy previous = 0.90%float /\
    p_accuracy current = 0.84%float /\
    (0.05 <? p_accuracy previous - p_accuracy current)%float = true /\
    r3.1 = Ok false.
Proof.
  eexists _, _. split; [vm_compute; reflexivity|].
  repeat split; vm_compute; reflexivity.
Qed.

(** C4, amended. [check_model_drift] always returns a verdict, and the
    verdict is drift exactly when the call appended a snapshot to a history that
    already had one (so that the history now has at least two) and the
    accuracy of the previous snapshot minus that of the new one exceeds
    0.05.  After accuracies 0.90 and then 0.84 the verdict is drift; after
    0.90 and then 0.86 it is not. *)
Theorem drift_rule :
  (forall (SK : Sklearn) (new_data : DataFrame) (target_col : string) (s : state),
     exists (verdict : bool) (s' : state),
       check_model_drift new_data target_col s = (Ok verdict, s') /\
       (verdict = true <->
        exists older previous current,
          performance_history (maintenance s) = older ++ [previous] /\
          performance_history (maintenance s') = older ++ [previous; current] /\
          (0.05 <? p_accuracy previous - p_accuracy current)%float = true)) /\
  (let s1 := (check_model_drift Scenario.batch_090 "is_active" Scenario.initial).2 in
   let r2 := check_model_drift Scenario.batch_084 "is_active" s1 in
   r2.1 = Ok true /\
   p_accuracy <$> performance_history (maintenance r2.2) = [0.90; 0.84]%float) /\
  (let s1 := (check_model_drift Scenario.batch_090 "is_active" Scenario.initial).2 in
   let r2 := check_model_drift Scenario.batch_086 "is_active" s1 in
   r2.1 = Ok false /\
   p_accuracy <$> performance_history (maintenance r2.2) = [0.90; 0.86]%float).
Proof.
  split; [|split; split; vm_compute; reflexivity].
  intros SK new_data target_col s.
  destruct (check_model_drift_cases new_data target_col s)
    as [E | (accuracy & f1 & E)]; rewrite E; eexists _, _; (split; [reflexivity|]).
  - split; [discriminate|]. intros (older & previous & current & H1 & H2 & _).
    rewrite H1 in H2. apply (f_equal length) in H2. rewrite !length_app in H2.
    simpl in H2. lia.
  - simpl. split.
    + destruct (last _) as [previous|] eqn:Hlast; [|discriminate].
      apply last_Some in Hlast as [older Hh]. intros Hdrop.
      exists older, previous, (mkPerformance (List.hd 0%Z (clock s)) accuracy f1 (len new_data)).
      rewrite Hh, <- app_assoc. auto.
    + intros (older & previous & current & H1 & H2 & Hdrop).
      rewrite H1, <- app_assoc in H2. simpl in H2.
      apply app_inv_head in H2. injection H2 as <-.
      rewrite H1, last_snoc. exact Hdrop.
Qed.

(** C3, as the code has it: on a test batch where the candidate has accuracy
    0.80 and F1 0.70 and the incumbent has accuracy 0.77 and F1 0.68, the
    candidate is not promoted: 0.70 is not above 0.68 + 0.02. *)
Lemma ab_test_margin_002_rejected :
  (ab_test_metrics "new_pred" Scenario.test_margin_002 "is_active" Scenario.initial).1
    = Ok (0.77, 0.80, 0.68, 0.70)%float /\
  (run_ab_test "new_pred" Scenario.test_margin_002 "is_active" Scenario.initial).1
    = Ok "old".
Proof. split; vm_compute; reflexivity. Qed.

(** C3, amended. [run_ab_test] always returns ["new"] (the candidate) or
    ["old"] (the incumbent) and changes nothing; it returns ["new"] exactly
    when the four metrics were computed on the batch and both the
    candidate's accuracy is above the incumbent's plus 0.02 and the
    candidate's F1 is above the incumbent's plus 0.02.  A candidate at 0.80
    and 0.60 against an incumbent at 0.75 and 0.50 is promoted; a candidate
    at 0.80 and 0.70 against 0.77 and 0.68 is not, its F1 margin not being
    above 0.02; nor is a candidate at 0.80 and 0.68 against 0.77 and 0.68. *)
Theorem ab_test_promotion_rule :
  (forall (SK : Sklearn) (new_model : Model) (test_data : DataFrame)
          (target_col : string) (s : state),
     exists verdict : string,
       run_ab_test new_model test_data target_col s = (Ok verdict, s) /\
       (verdict = "new" \/ verdict = "old") /\
       (verdict = "new" <->
        exists old_accuracy new_accuracy old_f1 new_f1,
          ab_test_metrics new_model test_data target_col s
            = (Ok (old_accuracy, new_accuracy, old_f1, new_f1), s) /\
          (old_accuracy + 0.02 <? new_accuracy)%float = true /\
          (old_f1 + 0.02 <? new_f1)%float = true)) /\
  ((ab_test_metrics "new_pred" Scenario.test_margin_clear "is_active" Scenario.initial).1
     = Ok (0.75, 0.80, 0.5, 0.6)%float /\
   (run_ab_test "new_pred" Scenario.test_margin_clear "is_active" Scenario.initial).1
     = Ok "new") /\
  ((ab_test_metrics "new_pred" Scenario.test_margin_002 "is_active" Scenario.initial).1
     = Ok (0.77, 0.80, 0.68, 0.70)%float /\
   (run_ab_test "new_pred" Scenario.test_margin_002 "is_active" Scenario.initial).1
     = Ok "old") /\
  ((ab_test_metrics "new_pred" Scenario.test_margin_000 "is_active" Scenario.initial).1
     = Ok (0.77, 0.80, 0.68, 0.68)%float /\
   (run_ab_test "new_pred" Scenario.test_margin_000 "is_active" Scenario.initial).1
     = Ok "old").
Proof.
  split; [|repeat split; vm_compute; reflexivity].
  intros SK new_model test_data target_col s.
  pose proof (ab_test_metrics_state new_model test_data target_col s) as Hs.
  unfold run_ab_test, try_except, mbind, M_bind.
  destruct (ab_test_metrics new_model test_data target_col s)
    as [[[[[oa na] ofs] nfs]|e] s'] eqn:E; simpl in Hs; subst s'.
  - destruct (oa + 0.02 <? na)%float eqn:Ha; [destruct (ofs + 0.02 <? nfs)%float eqn:Hf|];
      simpl.
    + exists "new". repeat split; auto. intros _. exists oa, na, ofs, nfs. auto.
    + exists "old". repeat split; auto; [discriminate|].
      intros (? & ? & ? & ? & [= <- <- <- <-] & _ & ?). congruence.
    + exists "old". repeat split; auto; [discriminate|].
      intros (? & ? & ? & ? & [= <- <- <- <-] & ? & _). congruence.
  - exists "old". repeat split; auto; [discriminate|].
    intros (? & ? & ? & ? & [=] & _).
Qed.

(** C1, as the code has it: a retraining that succeeds has replaced the
    file at [model_path]. *)
Lemma retrain_overwrites_active_slot :
  let r := retrain_model Scenario.training_batch "is_active" Scenario.initial in
  r.1 = Ok ("old_pred", 1%float) /\
  fs Scenario.initial !! Scenario.path = Some (Pickled Scenario.incumbent) /\
  fs r.2 !! Scenario.path
    = Some (Pickled (mkArtifacts (Some "old_pred") (Some tt) (Some [])
                       (Some ["old_pred"; "new_pred"]) (Some 1%Z))) /\
  fs r.2 !! Scenario.path <> fs Scenario.initial !! Scenario.path.
Proof.
  repeat split; try (vm_compute; reflexivity).
  vm_compute. discriminate.
Qed.

(** C1, amended. On a batch that meets the preconditions, when no later
    step fails (the active artifact loads, the split, the scaling, the fit
    and the scoring succeed, and neither dump fails), [retrain_model]
    returns the candidate model and its holdout accuracy; by then it has
    written the artifact it loaded to the backup path and then written the
    candidate's bundle (new model, new scaler, inherited encoders and feature
    names, retraining time) over the active path. *)
Theorem retrain_returns_candidate_and_replaces_active `{SK : Sklearn}
    (new_data : DataFrame) (target_col : string) (s : state)
    (old_artifacts : Artifacts) (X0 X X_train X_test : DataFrame)
    (y y_train y_test : list value) (old_scaler scaler : Scaler)
    (X_train_scaled X_test_scaled : ndarray) (new_model : Model) (accuracy : float) :
  empty new_data = false ->
  has_column target_col new_data = true ->
  (10 <= len new_data)%nat ->
  fs s !! model_path (maintenance s) = Some (Pickled old_artifacts) ->
  drop target_col new_data = Ok X0 ->
  getitem_col new_data target_col = Ok y ->
  match_feature_names old_artifacts X0 = Ok X ->
  train_test_split X y = Ok (X_train, X_test, y_train, y_test) ->
  a_scaler old_artifacts = Some old_scaler ->
  scaler_fit_transform (scaler_class_new old_scaler) X_train = Ok (scaler, X_train_scaled) ->
  scaler_transform scaler X_test = Ok X_test_scaled ->
  GradientBoostingClassifier_fit X_train_scaled y_train = Ok new_model ->
  score new_model X_test_scaled y_test = Ok accuracy ->
  Forall (fun outcome => outcome = DumpOk) (take 2 (dump_faults s)) ->
  let path := model_path (maintenance s) in
  let new_artifacts :=
    mkArtifacts (Some new_model) (Some scaler)
      (Some (default [] (a_label_encoders old_artifacts)))
      (Some (default (columns X) (a_feature_names old_artifacts)))
      (Some (List.hd 0%Z (clock s))) in
  exists s',
    retrain_model new_data target_col s = (Ok (new_model, accuracy), s') /\
    fs s' = <[path := Pickled new_artifacts]>
              (<[backup_path_of path := Pickled old_artifacts]> (fs s)) /\
    fs s' !! path = Some (Pickled new_artifacts) /\
    fs s' !! backup_path_of path = Some (Pickled old_artifacts) /\
    maintenance s' = maintenance s.
Proof.
  destruct s as [[path h] files faults ticks sent]. simpl.
  intros He Hc Hlen Hold HX0 Hy HX Hsplit Hsc Hfit Htr Hmodel Hscore Hfaults.
  apply Nat.ltb_ge in Hlen.
  pose proof (backup_path_fresh path) as Hfresh.
  unfold retrain_model. rewrite He, Hc, Hlen. simpl.
  unfold_M. rewrite Hold; simpl. rewrite HX0; simpl. rewrite Hy; simpl.
  rewrite HX; simpl. rewrite Hsplit; simpl. rewrite Hsc; simpl.
  rewrite Hfit; simpl. rewrite Htr; simpl. rewrite Hmodel; simpl.
  rewrite Hscore; simpl.
  unfold joblib_dump; simpl.
  destruct faults as [|o1 [|o2 rest]]; simpl in *.
  - eexists; repeat split; simpl.
    + apply lookup_insert_eq.
    + now rewrite lookup_insert_ne, lookup_insert_eq by congruence.
  - apply Forall_cons in Hfaults as [-> _]. simpl.
    eexists; repeat split; simpl.
    + apply lookup_insert_eq.
    + now rewrite lookup_insert_ne, lookup_insert_eq by congruence.
  - apply Forall_cons in Hfaults as [-> [-> _]%Forall_cons]. simpl.
    eexists; repeat split; simpl.
    + apply lookup_insert_eq.
    + now rewrite lookup_insert_ne, lookup_insert_eq by congruence.
Qed.

Lemma retrain_returns_candidate_and_replaces_active_witness :
  exists s',
    retrain_model Scenario.training_batch "is_active" Scenario.initial
      = (Ok ("old_pred", 1%float), s') /\
    fs s' !! Scenario.path
      = Some (Pickled (mkArtifacts (Some "old_pred") (Some tt) (Some [])
                         (Some ["old_pred"; "new_pred"]) (Some 1%Z))) /\
    fs s' !! backup_path_of Scenario.path = Some (Pickled Scenario.incumbent).
Proof.
  edestruct (retrain_returns_candidate_and_replaces_active
               Scenario.training_batch "is_active" Scenario.initial Scenario.incumbent)
    as (s' & Hrun & _ & Hactive & Hbackup & _).
  - reflexivity.
  - reflexivity.
  - vm_compute; lia.
  - reflexivity.
  - reflexivity.
  - reflexivity.
  - reflexivity.
  - reflexivity.
  - reflexivity.
  - reflexivity.
  - reflexivity.
  - reflexivity.
  - reflexivity.
  - constructor.
  - exists s'. split; [exact Hrun|]. split; [exact Hactive | exact Hbackup].
Defined.

(** C2. Whatever the batch, the outcome of each step and the fate of each
    dump, if the active path held an artifact before [retrain_model] then
    afterwards that artifact is at the active path still, or it is at the
    backup path, which is another path than the active one: the active file
    is overwritten only after the backup has been written in full. *)
Theorem retrain_backup_invariant `{SK : Sklearn} (new_data : DataFrame)
    (target_col : string) (s : state) (a : Artifacts) :
  fs s !! model_path (maintenance s) = Some (Pickled a) ->
  let path := model_path (maintenance s) in
  let s' := (retrain_model new_data target_col s).2 in
  (fs s' !! path = Some (Pickled a) \/
   fs s' !! backup_path_of path = Some (Pickled a)) /\
  backup_path_of path <> path.
Proof.
  intros Ha. split; [|apply backup_path_fresh]. revert Ha.
  destruct s as [[path h] files faults ticks sent]. simpl. intros Ha.
  pose proof (backup_path_fresh path) as Hfresh.
  unfold retrain_model.
  destruct (empty new_data); [left; exact Ha|].
  destruct (negb (has_column target_col new_data)); [left; exact Ha|].
  destruct (len new_data <? 10)%nat; [left; exact Ha|].
  unfold_M. rewrite Ha. simpl.
  repeat (next_call; try (left; exact Ha)).
  unfold joblib_dump; simpl.
  next_dump; unfold set_fs, set_dump_faults; simpl;
    try (left; exact Ha); try (left; now rewrite lookup_insert_ne);
    try next_dump; simpl; right.
  all: try (now rewrite lookup_insert_eq).
  all: now rewrite lookup_insert_ne, lookup_insert_eq by congruence.
Qed.

Lemma retrain_backup_invariant_witness :
  let s := set_dump_faults [DumpOk; DumpFails true] Scenario.initial in
  let s' := (retrain_model Scenario.training_batch "is_active" s).2 in
  fs s !! Scenario.path = Some (Pickled Scenario.incumbent) /\
  fs s' !! Scenario.path = Some Torn /\
  (fs s' !! Scenario.path = Some (Pickled Scenario.incumbent) \/
   fs s' !! backup_path_of Scenario.path = Some (Pickled Scenario.incumbent)).
Proof.
  split; [reflexivity|]. split; [vm_compute; reflexivity|].
  apply (retrain_backup_invariant Scenario.training_batch "is_active"
           (set_dump_faults [DumpOk; DumpFails true] Scenario.initial)
           Scenario.incumbent).
  reflexivity.
Defined.

(** * Further properties of the code *)

(** ** The feature codec *)

(** X1. [preprocess_new_student] can fail only in its loop over the label
    encoders, and then with that loop's exception.  Otherwise it returns a
    frame of one row whose columns are exactly [self.feature_names], in
    that order: the final reordering never raises [KeyError], and no other
    key of the record, such as the student id, reaches the model. *)
Theorem preprocess_feature_order `{SK : Sklearn} (self : DropoutPredictor)
    (student_data : gmap string value) :
  match encode_columns (label_encoders self) (of_record student_data) with
  | Ok _ =>
      exists df,
        preprocess_new_student self student_data = Ok df /\
        columns df = feature_names self /\
        index_len df = 1
  | Raise e => preprocess_new_student self student_data = Raise e
  end.
Proof.
  pose proof (preprocess_new_student_cases self student_data) as H.
  destruct (encode_columns _ _); [|exact H].
  destruct H as (df & ? & ? & ? & _). eauto.
Qed.

(** X2. A feature that the artifact lists and the record lacks is passed to
    the model as zero, whether or not it is a categorical feature. *)
Theorem preprocess_missing_feature_is_zero `{SK : Sklearn} (self : DropoutPredictor)
    (student_data : gmap string value) (feature : string) (df : DataFrame) :
  feature ∈ feature_names self ->
  student_data !! feature = None ->
  preprocess_new_student self student_data = Ok df ->
  getitem_col df feature = Ok [VNum 0].
Proof.
  intros Hin Hmissing Hdf.
  pose proof (preprocess_new_student_cases self student_data) as H.
  destruct (encode_columns _ _) as [encoded|e] eqn:Henc; [|congruence].
  destruct H as (df' & Hdf' & _ & _ & Hassoc).
  assert (df' = df) as -> by congruence.
  unfold getitem_col. rewrite (Hassoc feature Hin).
  assert (Hnone : assoc feature (data encoded) = None).
  { apply has_column_false_assoc.
    rewrite (encode_columns_has_column _ _ _ _ Henc).
    apply has_column_false_assoc. now rewrite assoc_of_record, Hmissing. }
  now rewrite Hnone.
Qed.

Lemma preprocess_missing_feature_is_zero_witness :
  exists df,
    preprocess_new_student Scenario.dropout_predictor Scenario.without_attendance = Ok df /\
    getitem_col df "attendance_rate" = Ok [VNum 0].
Proof.
  eexists. split; [vm_compute; reflexivity|].
  apply (preprocess_missing_feature_is_zero Scenario.dropout_predictor Scenario.without_attendance).
  - apply (bool_decide_unpack _); vm_compute; exact I.
  - vm_compute. reflexivity.
  - vm_compute. reflexivity.
Defined.

(** X3. A listed feature that the record has and that has no label encoder
    is passed to the model as the record gives it. *)
Theorem preprocess_plain_feature_unchanged `{SK : Sklearn} (self : DropoutPredictor)
    (student_data : gmap string value) (feature : string) (v : value)
    (df : DataFrame) :
  feature ∈ feature_names self ->
  feature ∉ (label_encoders self).*1 ->
  student_data !! feature = Some v ->
  preprocess_new_student self student_data = Ok df ->
  getitem_col df feature = Ok [v].
Proof.
  intros Hin Hplain Hv Hdf.
  pose proof (preprocess_new_student_cases self student_data) as H.
  destruct (encode_columns _ _) as [encoded|e] eqn:Henc; [|congruence].
  destruct H as (df' & Hdf' & _ & _ & Hassoc).
  assert (df' = df) as -> by congruence.
  unfold getitem_col. rewrite (Hassoc feature Hin).
  apply encode_columns_frame in Henc as (_ & _ & Hkeep).
  now rewrite (Hkeep feature Hplain), assoc_of_record, Hv.
Qed.

Lemma preprocess_plain_feature_unchanged_witness :
  exists df,
    preprocess_new_student Scenario.dropout_predictor Scenario.without_attendance = Ok df /\
    getitem_col df "risk" = Ok [VNum 0.4].
Proof.
  eexists. split; [vm_compute; reflexivity|].
  apply (preprocess_plain_feature_unchanged Scenario.dropout_predictor Scenario.without_attendance).
  - apply (bool_decide_unpack _); vm_compute; exact I.
  - apply (bool_decide_unpack _); vm_compute; exact I.
  - vm_compute. reflexivity.
  - vm_compute. reflexivity.
Defined.

(** X4. A listed categorical feature that the record has is passed to the
    model as the code that its encoder gives to the record's value if the
    encoder knows that value, and to the first of the encoder's classes if
    it does not. *)
Theorem preprocess_category_fallback `{SK : Sklearn} (self : DropoutPredictor)
    (student_data : gmap string value) (col : string) (encoder : LabelEncoder)
    (x : value) (df : DataFrame) :
  NoDup (label_encoders self).*1 ->
  (col, encoder) ∈ label_encoders self ->
  col ∈ feature_names self ->
  student_data !! col = Some x ->
  preprocess_new_student self student_data = Ok df ->
  exists known codes,
    (if value_in x (classes_ encoder) then known = x
     else classes_ encoder !! 0 = Some known) /\
    encoder_transform encoder [known] = Ok codes /\
    getitem_col df col = Ok codes.
Proof.
  intros Hnd Henc_in Hin Hx Hdf.
  pose proof (preprocess_new_student_cases self student_data) as H.
  pose proof (encode_columns_at (label_encoders self) col encoder Hnd Henc_in
                (of_record student_data) [x]) as Hat.
  rewrite assoc_of_record, Hx in Hat. specialize (Hat eq_refl).
  destruct (encode_columns _ _) as [encoded|e] eqn:Henc; [|congruence].
  destruct H as (df' & Hdf' & _ & _ & Hassoc).
  assert (df' = df) as -> by congruence.
  destruct Hat as (known & codes & Hknown & Hcodes & Hcol).
  simpl in Hknown. unfold getitem in Hknown.
  destruct (value_in x (classes_ encoder)) eqn:Hseen; simpl in Hknown.
  - injection Hknown as <-. exists x, codes.
    repeat split; [exact Hcodes|].
    unfold getitem_col. now rewrite (Hassoc col Hin), Hcol.
  - destruct (classes_ encoder !! 0) as [c0|] eqn:Hc0; simpl in Hknown; [|discriminate].
    injection Hknown as <-. exists c0, codes.
    repeat split; [exact Hcodes|].
    unfold getitem_col. now rewrite (Hassoc col Hin), Hcol.
Qed.

Lemma preprocess_category_fallback_witness :
  exists df known codes,
    preprocess_new_student Scenario.dropout_predictor Scenario.without_attendance = Ok df /\
    (if value_in (VStr "X") [VStr "F"; VStr "M"] then known = VStr "X"
     else [VStr "F"; VStr "M"] !! 0 = Some known) /\
    Stump.encode [VStr "F"; VStr "M"] [known] = Ok codes /\
    getitem_col df "gender" = Ok codes.
Proof.
  eexists.
  edestruct (preprocess_category_fallback Scenario.dropout_predictor Scenario.without_attendance
               "gender" [VStr "F"; VStr "M"] (VStr "X"))
    as (known & codes & Hknown & Hcodes & Hcol).
  - apply (bool_decide_unpack _); vm_compute; exact I.
  - simpl. constructor.
  - apply (bool_decide_unpack _); vm_compute; exact I.
  - vm_compute. reflexivity.
  - vm_compute. reflexivity.
  - exists known, codes. split; [reflexivity|]. split; [exact Hknown|].
    split; [exact Hcodes | exact Hcol].
Defined.

(** X5. A record that has a value for a categorical feature whose encoder has
    no class cannot be preprocessed: the fallback [classes_[0]] is out of
    range. *)
Theorem preprocess_encoder_without_classes `{SK : Sklearn} (self : DropoutPredictor)
    (student_data : gmap string value) (col : string) (encoder : LabelEncoder)
    (x : value) :
  NoDup (label_encoders self).*1 ->
  (col, encoder) ∈ label_encoders self ->
  classes_ encoder = [] ->
  student_data !! col = Some x ->
  exists e, preprocess_new_student self student_data = Raise e.
Proof.
  intros Hnd Henc_in Hempty Hx.
  pose proof (preprocess_new_student_cases self student_data) as H.
  pose proof (encode_columns_at (label_encoders self) col encoder Hnd Henc_in
                (of_record student_data) [x]) as Hat.
  rewrite assoc_of_record, Hx in Hat. specialize (Hat eq_refl).
  destruct (encode_columns _ _) as [encoded|e] eqn:Henc; [|eauto].
  destruct Hat as (known & codes & Hknown & _).
  simpl in Hknown. rewrite Hempty in Hknown. discriminate.
Qed.

Lemma preprocess_encoder_without_classes_witness :
  exists e, preprocess_new_student Scenario.predictor_without_classes Scenario.without_attendance = Raise e.
Proof.
  apply (preprocess_encoder_without_classes Scenario.predictor_without_classes
           Scenario.without_attendance "gender" [] (VStr "X")).
  - apply (bool_decide_unpack _); vm_compute; exact I.
  - simpl. constructor.
  - reflexivity.
  - vm_compute. reflexivity.
Defined.

(** X27. When the stages of [predict_dropout_risk] succeed, it returns the
    first label of [predict], entry 1 of the first row of [predict_proba],
    and the band of that number: Green below 0.3, Amber from 0.3 and below
    0.7, Red from 0.7. *)
Theorem risk_band_of_class_one_probability `{SK : Sklearn} (self : DropoutPredictor)
    (student_data : gmap string value) (processed_data : DataFrame)
    (scaled_data : ndarray) (predictions : list value) (prediction : value)
    (probabilities : list (list float)) (row : list float) (p : float) :
  preprocess_new_student self student_data = Ok processed_data ->
  scaler_transform (scaler self) processed_data = Ok scaled_data ->
  predict (model self) scaled_data = Ok predictions ->
  predictions !! 0 = Some prediction ->
  predict_proba (model self) scaled_data = Ok probabilities ->
  probabilities !! 0 = Some row ->
  row !! 1 = Some p ->
  exists risk_level,
    predict_dropout_risk self student_data = Ok (prediction, p, risk_level) /\
    ((p <? 0.3)%float = true -> risk_level = "Green") /\
    ((0.3 <=? p)%float = true -> (p <? 0.7)%float = true -> risk_level = "Amber") /\
    ((0.7 <=? p)%float = true -> risk_level = "Red") /\
    (risk_level = "Green" \/ risk_level = "Amber" \/ risk_level = "Red").
Proof.
  intros Hpre Hscale Hpred Hfirst Hproba Hrow Hp.
  unfold predict_dropout_risk, getitem.
  rewrite Hpre. simpl. rewrite Hscale. simpl. rewrite Hpred. simpl.
  rewrite Hfirst. simpl. rewrite Hproba. simpl. rewrite Hrow. simpl.
  rewrite Hp. simpl. eexists. split; [reflexivity|].
  assert (H37 : (0.3 <? 0.7)%float = true) by reflexivity.
  destruct (p <? 0.3)%float eqn:H3; [|destruct (p <? 0.7)%float eqn:H7].
  - pose proof (float_lt_trans p 0.3%float 0.7%float H3 H37) as H7.
    repeat split; try congruence; try tauto.
    + intros Hle%float_le_not_lt. congruence.
    + intros Hle%float_le_not_lt. congruence.
  - repeat split; try congruence; try tauto.
    intros Hle%float_le_not_lt. congruence.
  - repeat split; try congruence; tauto.
Qed.

Lemma risk_band_of_class_one_probability_witness :
  predict_dropout_risk Scenario.dropout_predictor
    (Scenario.student "STU5" (VNum 0.70) (VNum 0.7))
  = Ok (VNum 1, 0.7%float, "Red").
Proof.
  destruct (risk_band_of_class_one_probability Scenario.dropout_predictor
              (Scenario.student "STU5" (VNum 0.70) (VNum 0.7))
              (Stump.frame ["gender"; "attendance_rate"; "risk"]
                 [[VNum 1; VNum 0.70; VNum 0.7]])
              (Stump.frame ["gender"; "attendance_rate"; "risk"]
                 [[VNum 1; VNum 0.70; VNum 0.7]])
              [VNum 1] (VNum 1) [[(1 - 0.7)%float; 0.7%float]]
              [(1 - 0.7)%float; 0.7%float] 0.7%float)
    as (level & Hrun & _ & _ & Hred & _); [vm_compute; reflexivity..|].
  rewrite Hrun. now rewrite Hred by reflexivity.
Defined.

(** ** Batches *)

Section BatchProps.
Context `{SK : Sklearn}.

(** The entry and the state that a turn of the loop produces do not depend
    on the results gathered so far. *)
Lemma predict_batch_step_acc (self : DropoutPredictor) (acc : list result_entry)
    (student_data : gmap string value) (s : state) :
  exists entry s',
    (forall results,
       predict_batch_step self results student_data s
       = (Ok (results ++ [entry]), s')) /\
    entry_id entry = get_student_id student_data.
Proof.
  unfold predict_batch_step, try_except, pure, mbind, M_bind, mret, M_ret,
    datetime_now.
  destruct (predict_dropout_risk self student_data) as [[[prediction p] level]|e]; simpl.
  - eexists _, _. split; [reflexivity | reflexivity].
  - eexists _, _. split; [reflexivity | reflexivity].
Qed.

Lemma predict_batch_loop_acc (self : DropoutPredictor)
    (students_data : list (gmap string value)) :
  forall (s : state),
  exists entries s',
    (forall results,
       predict_batch_loop self students_data results s
       = (Ok (results ++ entries), s')) /\
    entry_id <$> entries = get_student_id <$> students_data.
Proof.
  induction students_data as [|student_data rest IH]; intros s; simpl.
  - exists [], s. split; [|reflexivity]. intros results. now rewrite app_nil_r.
  - destruct (predict_batch_step_acc self [] student_data s)
      as (entry & s1 & Hstep & Hid).
    destruct (IH s1) as (entries & s' & Hloop & Hids).
    exists (entry :: entries), s'. split.
    + intros results. unfold mbind, M_bind. rewrite Hstep, Hloop.
      now rewrite <- app_assoc.
    + simpl. f_equal; [exact Hid | exact Hids].
Qed.

End BatchProps.

(** X6. [predict_batch] never raises, and its entries carry, in order, the
    [student_id] of the records, or ['unknown'] for a record without one,
    whether the record was scored or not. *)
Theorem predict_batch_ids `{SK : Sklearn} (self : DropoutPredictor)
    (students_data : list (gmap string value)) (s : state) :
  exists results s',
    predict_batch self students_data s = (Ok results, s') /\
    entry_id <$> results
    = (fun d => default (VStr "unknown") (d !! "student_id")) <$> students_data.
Proof.
  destruct (predict_batch_loop_acc self students_data s) as (entries & s' & Hloop & Hids).
  exists entries, s'. split; [apply (Hloop [])|exact Hids].
Qed.

(** X7. Scoring a batch made of two parts gives the entries of the first
    part followed by the entries of the second part scored in the state
    that the first part left. *)
Theorem predict_batch_app `{SK : Sklearn} (self : DropoutPredictor)
    (first second : list (gmap string value)) (s : state) :
  exists results1 results2 s1 s2,
    predict_batch self first s = (Ok results1, s1) /\
    predict_batch self second s1 = (Ok results2, s2) /\
    predict_batch self (first ++ second) s = (Ok (results1 ++ results2), s2).
Proof.
  unfold predict_batch. revert s.
  induction first as [|student_data rest IH]; intros s; simpl.
  - destruct (predict_batch_loop_acc self second s) as (entries & s' & Hloop & _).
    exists [], entries, s, s'. repeat split; apply (Hloop []).
  - destruct (predict_batch_step_acc self [] student_data s) as (entry & s0 & Hstep & _).
    destruct (IH s0) as (r1 & r2 & s1 & s2 & H1 & H2 & H12).
    destruct (predict_batch_loop_acc self rest s0) as (e1 & s1' & Hl1 & _).
    destruct (predict_batch_loop_acc self (rest ++ second) s0) as (e12 & s2' & Hl12 & _).
    rewrite (Hl1 []) in H1. injection H1 as <- <-.
    rewrite (Hl12 []) in H12. injection H12 as -> ->.
    exists (entry :: e1), r2, s1', s2. unfold mbind, M_bind.
    rewrite !(Hstep []). simpl. rewrite Hl1, Hl12. repeat split. exact H2.
Qed.

(** ** Alerts and the daily job *)

Section MonitorProps.
Context `{SK : Sklearn}.

(** Whatever the entries, the loop only appends to the outbox. *)
Lemma send_alerts_loop_outbox (entries : list result_entry) :
  forall s : state,
  exists r sent,
    send_alerts_loop entries s = (r, set_outbox (outbox s ++ sent) s).
Proof.
  induction entries as [|entry rest IH]; intros s; simpl.
  - exists (Ok tt), []. unfold mret, M_ret, set_outbox.
    now rewrite app_nil_r, state_eta.
  - unfold mbind, M_bind, pure, notifier_send_alert.
    destruct (alert_text entry) as [msg|e]; simpl.
    + destruct (IH (set_outbox (outbox s ++ [mkAlert "mentor@school.edu"
                      "Student Dropout Risk Alert" msg]) s)) as (r & sent & ->).
      simpl. eexists r, (_ :: sent). unfold set_outbox. simpl.
      now rewrite <- app_assoc.
    + exists (Raise e), []. unfold set_outbox. now rewrite app_nil_r, state_eta.
Qed.

Lemma send_alerts_over (self : RealTimeMonitor) (results : list result_entry) :
  (0 <=? high_risk_threshold self)%float = true ->
  forall s : state,
    send_alerts self results s
    = (Ok tt,
       set_outbox (outbox s ++ omap (alert_over (high_risk_threshold self)) results) s).
Proof.
  intros Hthreshold%float_le_not_lt. unfold send_alerts.
  induction results as [|entry rest IH]; intros s; simpl.
  - unfold mret, M_ret, set_outbox. now rewrite app_nil_r, state_eta.
  - rewrite filter_cons. destruct entry as [sid prediction p level t|sid err]; simpl.
    + destruct (high_risk_threshold self <? p)%float eqn:Hp; simpl.
      * unfold mbind, M_bind, pure, notifier_send_alert. simpl.
        rewrite IH. simpl. now rewrite <- app_assoc.
      * apply IH.
    + rewrite Hthreshold. simpl. apply IH.
Qed.

Lemma process_daily_predictions_cases (self : RealTimeMonitor)
    (db_connector : DatabaseConnector) (s : state) :
  let new_data := fetch_new_data db_connector in
  if empty new_data then
    process_daily_predictions self db_connector s = (Ok tt, s)
  else
    exists results ticks r sent,
      predict_batch (predictor self) (to_dict_records new_data) s
        = (Ok results, set_clock ticks s) /\
      send_alerts self results (set_clock ticks s)
        = (r, set_outbox (outbox s ++ sent) (set_clock ticks s)) /\
      process_daily_predictions self db_connector s
        = (Ok tt, set_outbox (outbox s ++ sent) (set_clock ticks s)).
Proof.
  simpl. unfold process_daily_predictions, try_except.
  destruct (empty (fetch_new_data db_connector)); simpl; [reflexivity|].
  destruct (predict_batch_loop_spec (predictor self)
              (to_dict_records (fetch_new_data db_connector)) [] s)
    as (results & ticks & Hbatch & _).
  simpl in Hbatch. fold (predict_batch (predictor self)
                           (to_dict_records (fetch_new_data db_connector))) in Hbatch.
  unfold send_alerts.
  destruct (send_alerts_loop_outbox
              (filter (fun r => (high_risk_threshold self <? get_probability r)%float)
                 results) (set_clock ticks s)) as (r & sent & Hsend).
  exists results, ticks, r, sent. split; [exact Hbatch|]. split; [exact Hsend|].
  unfold mbind, M_bind, save_predictions, mret, M_ret. rewrite Hbatch.
  unfold send_alerts. rewrite Hsend. destruct r as [[]|]; reflexivity.
Qed.

End MonitorProps.

(** X8. For a monitor whose threshold is not negative, [send_alerts] never
    raises and hands the notifier one alert per scored entry whose
    probability is strictly above the threshold, in order; error entries
    give none. *)
Theorem send_alerts_over_threshold `{SK : Sklearn} (self : RealTimeMonitor)
    (results : list result_entry) (s : state) :
  (0 <=? high_risk_threshold self)%float = true ->
  send_alerts self results s
  = (Ok tt,
     set_outbox (outbox s ++ omap (alert_over (high_risk_threshold self)) results) s).
Proof. intros H. now apply send_alerts_over. Qed.

Lemma send_alerts_over_threshold_witness :
  let self := mkRealTimeMonitor Scenario.dropout_predictor 0.5 in
  let results :=
    [ Scored (VStr "STU2") (VNum 1) 0.5 "Amber" 2%Z;
      Failed (VStr "STU3") "could not convert string to float";
      Scored (VStr "STU5") (VNum 1) 0.7 "Red" 4%Z ] in
  send_alerts self results Scenario.initial
  = (Ok tt,
     set_outbox
       [mkAlert "mentor@school.edu" "Student Dropout Risk Alert"
          (mkAlertMessage (VStr "STU5") 0.7 "Red" 4%Z)]
       Scenario.initial).
Proof.
  refine (send_alerts_over_threshold
            (mkRealTimeMonitor Scenario.dropout_predictor 0.5) _ Scenario.initial _).
  vm_compute. reflexivity.
Defined.

(** X9. With a negative threshold an error entry passes the filter of
    [send_alerts], which raises [KeyError] at the first of them, for the key
    it lacks.  By then exactly the alerts of the entries before it have been
    sent; no entry after it is looked at. *)
Theorem send_alerts_negative_threshold `{SK : Sklearn} (self : RealTimeMonitor)
    (before after : list result_entry) (sid : value) (error : string) (s : state) :
  (high_risk_threshold self <? 0)%float = true ->
  Forall (fun entry => is_Some (entry_timestamp entry)) before ->
  send_alerts self (before ++ Failed sid error :: after) s
  = (Raise (KeyError "probability"),
     set_outbox (outbox s ++ omap (alert_over (high_risk_threshold self)) before) s).
Proof.
  intros Hneg Hscored. unfold send_alerts. revert s.
  induction Hscored as [|entry before Hentry _ IH]; intros s; simpl.
  - rewrite filter_cons. simpl. rewrite Hneg. simpl.
    unfold set_outbox. now rewrite app_nil_r, state_eta.
  - rewrite filter_cons.
    destruct entry as [sid' prediction p level t|sid' err]; simpl;
      [|now destruct Hentry].
    destruct (high_risk_threshold self <? p)%float; simpl.
    + unfold mbind, M_bind, pure, notifier_send_alert. simpl.
      rewrite IH. simpl. unfold set_outbox. simpl. now rewrite <- app_assoc.
    + apply IH.
Qed.

Lemma send_alerts_negative_threshold_witness :
  let self := mkRealTimeMonitor Scenario.dropout_predictor (-1) in
  send_alerts self
    [ Scored (VStr "STU1") (VNum 0) 0.1 "Green" 1%Z;
      Scored (VStr "STU4") (VNum 1) 0.9 "Red" 3%Z;
      Failed (VStr "STU3") "could not convert string to float";
      Scored (VStr "STU5") (VNum 1) 0.7 "Red" 4%Z ]
    Scenario.initial
  = (Raise (KeyError "probability"),
     set_outbox
       [ mkAlert "mentor@school.edu" "Student Dropout Risk Alert"
           (mkAlertMessage (VStr "STU1") 0.1 "Green" 1%Z);
         mkAlert "mentor@school.edu" "Student Dropout Risk Alert"
           (mkAlertMessage (VStr "STU4") 0.9 "Red" 3%Z) ]
       Scenario.initial).
Proof.
  refine (send_alerts_negative_threshold
            (mkRealTimeMonitor Scenario.dropout_predictor (-1))
            [ Scored (VStr "STU1") (VNum 0) 0.1 "Green" 1%Z;
              Scored (VStr "STU4") (VNum 1) 0.9 "Red" 3%Z ]
            [ Scored (VStr "STU5") (VNum 1) 0.7 "Red" 4%Z ]
            (VStr "STU3") "could not convert string to float" Scenario.initial _ _).
  - vm_compute. reflexivity.
  - repeat constructor; eexists; reflexivity.
Defined.

(** X10. [process_daily_predictions] never raises; it leaves the store and
    the performance history as they were and only appends to the alerts. *)
Theorem daily_job_never_raises `{SK : Sklearn} (self : RealTimeMonitor)
    (db_connector : DatabaseConnector) (s : state) :
  exists ticks sent,
    process_daily_predictions self db_connector s
    = (Ok tt, set_outbox (outbox s ++ sent) (set_clock ticks s)).
Proof.
  pose proof (process_daily_predictions_cases self db_connector s) as H. simpl in H.
  destruct (empty (fetch_new_data db_connector)).
  - exists (clock s), []. rewrite H. unfold set_outbox, set_clock. simpl.
    now rewrite app_nil_r, state_eta.
  - destruct H as (results & ticks & r & sent & _ & _ & H). eauto.
Qed.

(** X11. When the query of the job fails or returns no rows,
    [process_daily_predictions] does nothing: no record is scored and no
    alert is sent, whatever the connector answers to other queries. *)
Theorem daily_job_without_rows `{SK : Sklearn} (self : RealTimeMonitor)
    (db_connector : DatabaseConnector) (s : state) :
  match read_sql_query db_connector new_records_query with
  | Ok df => empty df = true
  | Raise _ => True
  end ->
  process_daily_predictions self db_connector s = (Ok tt, s).
Proof.
  intros Hdb.
  pose proof (process_daily_predictions_cases self db_connector s) as H. simpl in H.
  assert (Hempty : empty (fetch_new_data db_connector) = true).
  { unfold fetch_new_data, execute_query.
    destruct (read_sql_query db_connector new_records_query); [exact Hdb | reflexivity]. }
  now rewrite Hempty in H.
Qed.

Lemma daily_job_without_rows_witness :
  read_sql_query Scenario.database_without_now "SELECT * FROM student_records"
  = Ok Scenario.student_rows
  /\ process_daily_predictions Scenario.monitor Scenario.database_without_now
       Scenario.initial
     = (Ok tt, Scenario.initial).
Proof.
  split; [reflexivity|].
  apply (daily_job_without_rows Scenario.monitor Scenario.database_without_now
           Scenario.initial).
  exact I.
Defined.

(** X12. When the query returns rows and the threshold is not negative,
    [process_daily_predictions] scores one record per row and sends the
    alerts of exactly the scored records whose probability is above the
    threshold. *)
Theorem daily_job_alerts `{SK : Sklearn} (self : RealTimeMonitor)
    (db_connector : DatabaseConnector) (s : state) (new_data : DataFrame) :
  (0 <=? high_risk_threshold self)%float = true ->
  fetch_new_data db_connector = new_data ->
  empty new_data = false ->
  exists results ticks,
    predict_batch (predictor self) (to_dict_records new_data) s
      = (Ok results, set_clock ticks s) /\
    length results = index_len new_data /\
    process_daily_predictions self db_connector s
    = (Ok tt,
       set_outbox
         (outbox s ++ omap (alert_over (high_risk_threshold self)) results)
         (set_clock ticks s)).
Proof.
  intros Hthreshold Hfetch Hrows.
  pose proof (process_daily_predictions_cases self db_connector s) as H. simpl in H.
  rewrite Hfetch, Hrows in H.
  destruct H as (results & ticks & r & sent & Hbatch & Hsend & H).
  exists results, ticks. split; [exact Hbatch|]. split.
  - destruct (predict_batch_loop_spec (predictor self) (to_dict_records new_data) [] s)
      as (entries & ticks' & Hloop & Hall).
    unfold predict_batch in Hbatch. rewrite Hloop in Hbatch. injection Hbatch as <- _.
    apply Forall2_length in Hall. rewrite <- Hall. unfold to_dict_records.
    now rewrite length_fmap, length_seq.
  - rewrite (send_alerts_over self results Hthreshold) in Hsend.
    injection Hsend as _ Hsend. rewrite H.
    f_equal. unfold set_outbox in *. simpl in *. congruence.
Qed.

Lemma daily_job_alerts_witness :
  exists results ticks,
    predict_batch Scenario.dropout_predictor (to_dict_records Scenario.student_rows)
      Scenario.initial
      = (Ok results, set_clock ticks Scenario.initial) /\
    length results = 5 /\
    process_daily_predictions Scenario.monitor Scenario.database Scenario.initial
    = (Ok tt,
       set_outbox (outbox Scenario.initial ++ omap (alert_over 0.7) results)
         (set_clock ticks Scenario.initial)).
Proof.
  apply (daily_job_alerts Scenario.monitor Scenario.database Scenario.initial Scenario.student_rows).
  - vm_compute. reflexivity.
  - reflexivity.
  - reflexivity.
Defined.

(** ** Retraining and what follows it *)

Section MaintenanceProps.
Context `{SK : Sklearn}.


(** What [retrain_model] can have done to the state, whatever its outcome. *)
Lemma retrain_model_store (new_data : DataFrame) (target_col : string) (s : state) :
  let path := model_path (maintenance s) in
  let s' := (retrain_model new_data target_col s).2 in
  maintenance s' = maintenance s /\
  outbox s' = outbox s /\
  (forall k, k <> path -> k <> backup_path_of path -> fs s' !! k = fs s !! k) /\
  (fs s' !! path = fs s !! path \/
   exists a, fs s !! path = Some (Pickled a) /\
             fs s' !! backup_path_of path = Some (Pickled a)).
Proof.
  destruct s as [[path h] files faults ticks sent]. simpl.
  pose proof (backup_path_fresh path) as Hfresh.
  unfold retrain_model.
  destruct (empty new_data); [simpl; auto|].
  destruct (negb (has_column target_col new_data)); [simpl; auto|].
  destruct (len new_data <? 10)%nat; [simpl; auto|].
  unfold_M.
  repeat (next_call; try (simpl; auto; fail)).
  unfold joblib_dump; simpl.
  next_dump; unfold set_fs, set_dump_faults; simpl; try next_dump; simpl.
  all: repeat split; auto.
  all: try (intros k Hk Hb; now rewrite ?lookup_insert_ne by congruence).
  all: try (left; now rewrite ?lookup_insert_ne by congruence).
  all: right; eexists; split; [reflexivity|].
  all: now rewrite ?(lookup_insert_ne _ path) by congruence; rewrite lookup_insert_eq.
Qed.

(** A retraining that returned has written these two files. *)
Lemma retrain_model_returns (new_data : DataFrame) (target_col : string)
    (s s' : state) (new_model : Model) (accuracy : float) :
  retrain_model new_data target_col s = (Ok (new_model, accuracy), s') ->
  let path := model_path (maintenance s) in
  exists old_artifacts scaler X,
    fs s !! path = Some (Pickled old_artifacts) /\
    fs s' = <[path := Pickled
                (mkArtifacts (Some new_model) (Some scaler)
                   (Some (default [] (a_label_encoders old_artifacts)))
                   (Some (default (columns X) (a_feature_names old_artifacts)))
                   (Some (List.hd 0%Z (clock s))))]>
              (<[backup_path_of path := Pickled old_artifacts]> (fs s)) /\
    maintenance s' = maintenance s.
Proof.
  destruct s as [[path h] files faults ticks sent]. simpl.
  unfold retrain_model.
  destruct (empty new_data); [discriminate|].
  destruct (has_column target_col new_data); [|discriminate]. simpl.
  destruct (len new_data <? 10)%nat eqn:Hlen; [discriminate|].
  unfold_M.
  repeat (next_call; try discriminate).
  unfold joblib_dump; simpl.
  next_dump; try discriminate; unfold set_fs, set_dump_faults; simpl;
    try next_dump; try discriminate; simpl.
  all: intros [= <- <- <-]; simpl.
  all: eexists _, _, _; split; [reflexivity|]; split; reflexivity.
Qed.

Lemma DropoutPredictor_init_load (path : string) (s : state) (a : Artifacts) :
  fs s !! path = Some (Pickled a) ->
  DropoutPredictor_init path s
  = ((m ← getkey "model" (a_model a);
      sc ← getkey "scaler" (a_scaler a);
      encs ← getkey "label_encoders" (a_label_encoders a);
      names ← getkey "feature_names" (a_feature_names a);
      Ok (mkDropoutPredictor a m sc encs names)), s).
Proof.
  intros Ha. unfold DropoutPredictor_init. unfold_M. rewrite Ha. simpl.
  destruct (getkey "model" _); simpl; [|reflexivity].
  destruct (getkey "scaler" _); simpl; [|reflexivity].
  destruct (getkey "label_encoders" _); simpl; [|reflexivity].
  destruct (getkey "feature_names" _); simpl; reflexivity.
Qed.

End MaintenanceProps.



(** X14. Whatever its outcome, [retrain_model] leaves the performance
    history and the alerts as they were and writes no file but the one at
    [model_path] and its backup. *)
Theorem retrain_writes_two_files_only `{SK : Sklearn} (new_data : DataFrame)
    (target_col : string) (s : state) :
  let path := model_path (maintenance s) in
  let s' := (retrain_model new_data target_col s).2 in
  maintenance s' = maintenance s /\
  outbox s' = outbox s /\
  forall k, k <> path -> k <> backup_path_of path -> fs s' !! k = fs s !! k.
Proof.
  destruct (retrain_model_store new_data target_col s) as (? & ? & ? & _). auto.
Qed.

(** X15. After a retraining that returned, a [DropoutPredictor] built from
    [model_path] loads: its model is the model that the retraining
    returned, and its encoders and feature names are those of the artifact
    that was replaced. *)
Theorem predictor_after_retrain `{SK : Sklearn} (new_data : DataFrame)
    (target_col : string) (s s' : state) (new_model : Model) (accuracy : float) :
  retrain_model new_data target_col s = (Ok (new_model, accuracy), s') ->
  exists (old_artifacts : Artifacts) (self : DropoutPredictor),
    fs s !! model_path (maintenance s) = Some (Pickled old_artifacts) /\
    DropoutPredictor_init (model_path (maintenance s)) s' = (Ok self, s') /\
    model self = new_model /\
    label_encoders self = default [] (a_label_encoders old_artifacts) /\
    (forall names, a_feature_names old_artifacts = Some names ->
                   feature_names self = names).
Proof.
  intros (old & sc & X & Hold & Hfs & _)%retrain_model_returns.
  exists old. eexists. split; [exact Hold|].
  rewrite (DropoutPredictor_init_load _ s' _
             ltac:(rewrite Hfs; apply lookup_insert_eq)).
  simpl. split; [reflexivity|]. simpl. repeat split.
  intros names ->. reflexivity.
Qed.

Lemma predictor_after_retrain_witness :
  let s' := (retrain_model Scenario.training_batch "is_active" Scenario.initial).2 in
  exists (old_artifacts : Artifacts) (self : DropoutPredictor),
    fs Scenario.initial !! Scenario.path = Some (Pickled old_artifacts) /\
    DropoutPredictor_init Scenario.path s' = (Ok self, s') /\
    model self = "old_pred".
Proof.
  destruct (predictor_after_retrain Scenario.training_batch "is_active" Scenario.initial
              (retrain_model Scenario.training_batch "is_active" Scenario.initial).2
              "old_pred" 1%float)
    as (old & self & Hold & Hinit & Hmodel & _).
  - vm_compute. reflexivity.
  - exists old, self. repeat split; assumption.
Defined.

(** X16. If a [DropoutPredictor] could be built from [model_path] before
    [retrain_model], then afterwards, whatever the outcome, the same
    predictor can be built from [model_path] or from the backup path. *)
Theorem predictor_recoverable_after_retrain `{SK : Sklearn} (new_data : DataFrame)
    (target_col : string) (s : state) (self : DropoutPredictor) :
  let path := model_path (maintenance s) in
  let s' := (retrain_model new_data target_col s).2 in
  DropoutPredictor_init path s = (Ok self, s) ->
  DropoutPredictor_init path s' = (Ok self, s') \/
  DropoutPredictor_init (backup_path_of path) s' = (Ok self, s').
Proof.
  simpl. intros Hinit.
  destruct (fs s !! model_path (maintenance s)) as [[a|]|] eqn:Hfile.
  - rewrite (DropoutPredictor_init_load _ _ _ Hfile) in Hinit.
    injection Hinit as Hinit.
    destruct (retrain_model_store new_data target_col s)
      as (_ & _ & _ & [Hsame | (a' & Ha' & Hbackup)]).
    + left. rewrite Hfile in Hsame.
      now rewrite (DropoutPredictor_init_load _ _ _ Hsame), Hinit.
    + right. assert (a' = a) as -> by congruence.
      now rewrite (DropoutPredictor_init_load _ _ _ Hbackup), Hinit.
  - unfold DropoutPredictor_init, mbind, M_bind, joblib_load in Hinit.
    rewrite Hfile in Hinit. discriminate.
  - unfold DropoutPredictor_init, mbind, M_bind, joblib_load in Hinit.
    rewrite Hfile in Hinit. discriminate.
Qed.

Lemma predictor_recoverable_after_retrain_witness :
  let s := set_dump_faults [DumpOk; DumpFails true] Scenario.initial in
  let s' := (retrain_model Scenario.training_batch "is_active" s).2 in
  let self :=
    mkDropoutPredictor Scenario.incumbent "old_pred" tt [] ["old_pred"; "new_pred"] in
  fs s' !! Scenario.path = Some Torn /\
  (DropoutPredictor_init Scenario.path s' = (Ok self, s') \/
   DropoutPredictor_init (backup_path_of Scenario.path) s' = (Ok self, s')).
Proof.
  split; [vm_compute; reflexivity|].
  apply (predictor_recoverable_after_retrain Scenario.training_batch "is_active"
           (set_dump_faults [DumpOk; DumpFails true] Scenario.initial)).
  vm_compute. reflexivity.
Defined.

(** X17. Of two retrainings that returned, the second backs up the bundle
    that the first wrote to [model_path]: the backup then holds the first
    candidate, no longer the artifact that was active before the first. *)
Theorem second_retrain_backs_up_first_candidate `{SK : Sklearn}
    (data1 data2 : DataFrame) (target1 target2 : string) (s s1 s2 : state)
    (model1 model2 : Model) (accuracy1 accuracy2 : float) :
  retrain_model data1 target1 s = (Ok (model1, accuracy1), s1) ->
  retrain_model data2 target2 s1 = (Ok (model2, accuracy2), s2) ->
  let path := model_path (maintenance s) in
  exists candidate1,
    a_model candidate1 = Some model1 /\
    fs s1 !! path = Some (Pickled candidate1) /\
    fs s2 !! backup_path_of path = Some (Pickled candidate1).
Proof.
  intros (old & sc & X & _ & Hfs1 & Hmm1)%retrain_model_returns.
  intros (old2 & sc2 & X2 & Hold2 & Hfs2 & _)%retrain_model_returns.
  simpl. rewrite Hmm1 in Hold2, Hfs2.
  pose proof (backup_path_fresh (model_path (maintenance s))) as Hfresh.
  eexists. split; [|split].
  2: { rewrite Hfs1. apply lookup_insert_eq. }
  - reflexivity.
  - rewrite Hfs1, lookup_insert_eq in Hold2. injection Hold2 as <-.
    rewrite Hfs2. now rewrite lookup_insert_ne, lookup_insert_eq by congruence.
Qed.

Lemma second_retrain_backs_up_first_candidate_witness :
  let s1 := (retrain_model Scenario.training_batch "is_active" Scenario.initial).2 in
  let s2 := (retrain_model Scenario.training_batch "is_active" s1).2 in
  exists candidate1,
    a_model candidate1 = Some "old_pred" /\
    fs s1 !! Scenario.path = Some (Pickled candidate1) /\
    fs s2 !! backup_path_of Scenario.path = Some (Pickled candidate1).
Proof.
  apply (second_retrain_backs_up_first_candidate
           Scenario.training_batch Scenario.training_batch "is_active" "is_active"
           Scenario.initial
           (retrain_model Scenario.training_batch "is_active" Scenario.initial).2
           (retrain_model Scenario.training_batch "is_active"
              (retrain_model Scenario.training_batch "is_active" Scenario.initial).2).2
           "old_pred" "old_pred" 1%float 1%float).
  - vm_compute. reflexivity.
  - vm_compute. reflexivity.
Defined.

(** X18. After a retraining that returned, [run_ab_test] on the model it
    returned loads that same model as the old one: whenever the four
    metrics are computed, the old accuracy equals the new accuracy and the
    old F1 equals the new F1. *)
Theorem ab_test_after_retrain_compares_candidate_with_itself `{SK : Sklearn}
    (new_data test_data : DataFrame) (target_col test_target : string)
    (s s' s'' : state) (new_model : Model) (accuracy : float)
    (old_accuracy new_accuracy old_f1 new_f1 : float) :
  retrain_model new_data target_col s = (Ok (new_model, accuracy), s') ->
  ab_test_metrics new_model test_data test_target s'
    = (Ok (old_accuracy, new_accuracy, old_f1, new_f1), s'') ->
  old_accuracy = new_accuracy /\ old_f1 = new_f1.
Proof.
  intros (old & sc & X & _ & Hfs & Hmm)%retrain_model_returns.
  assert (Hfile : fs s' !! model_path (maintenance s')
                  = Some (Pickled (mkArtifacts (Some new_model) (Some sc)
                      (Some (default [] (a_label_encoders old)))
                      (Some (default (columns X) (a_feature_names old)))
                      (Some (List.hd 0%Z (clock s)))))).
  { rewrite Hmm, Hfs. apply lookup_insert_eq. }
  unfold ab_test_metrics.
  destruct (empty test_data); [discriminate|].
  destruct (negb (has_column test_target test_data)); [discriminate|].
  unfold_M. rewrite Hfile. simpl.
  repeat (next_call; try discriminate).
  intros [= <- <- <- <-]. split; congruence.
Qed.

Lemma ab_test_after_retrain_compares_candidate_with_itself_witness :
  let s' := (retrain_model Scenario.training_batch "is_active" Scenario.initial).2 in
  ab_test_metrics "old_pred" Scenario.test_margin_clear "is_active" s'
    = (Ok (0.75, 0.75, 0.5, 0.5)%float, s') /\
  (0.75 = 0.75 /\ 0.5 = 0.5)%float.
Proof.
  split; [vm_compute; reflexivity|].
  apply (ab_test_after_retrain_compares_candidate_with_itself
           Scenario.training_batch Scenario.test_margin_clear "is_active" "is_active"
           Scenario.initial
           (retrain_model Scenario.training_batch "is_active" Scenario.initial).2
           (retrain_model Scenario.training_batch "is_active" Scenario.initial).2
           "old_pred" 1%float).
  - vm_compute. reflexivity.
  - vm_compute. reflexivity.
Defined.

(** ** Drift checks *)

Lemma SFsub_diag (x : spec_float) :
  SFsub prec emax x x = S754_nan \/ SFsub prec emax x x = S754_zero false.
Proof.
  destruct x as [[]|[]| |s m e]; simpl; auto.
  right. rewrite Z.sub_diag. reflexivity.
Qed.

(** A number minus itself is not above 0.05. *)
Lemma float_sub_diag_not_above (x : float) : (0.05 <? x - x)%float = false.
Proof.
  rewrite FloatAxioms.ltb_spec, FloatAxioms.sub_spec.
  unfold SF64sub. destruct (SFsub_diag (Prim2SF x)) as [-> | ->]; reflexivity.
Qed.

Section DriftProps.
Context `{SK : Sklearn}.

Lemma check_model_drift_no_file (new_data : DataFrame) (target_col : string) (s : state) :
  fs s !! model_path (maintenance s) = None ->
  check_model_drift new_data target_col s = (Ok false, s).
Proof.
  intros Hfile. unfold check_model_drift.
  destruct (empty new_data); [reflexivity|].
  destruct (negb (has_column target_col new_data)); [reflexivity|].
  unfold_M. rewrite Hfile. reflexivity.
Qed.

(** Two drift checks of one batch against one store measure the same
    accuracy, whatever the histories and the clocks. *)
Lemma check_model_drift_stable (new_data : DataFrame) (target_col : string)
    (s1 s2 : state) :
  fs s2 = fs s1 ->
  model_path (maintenance s2) = model_path (maintenance s1) ->
  (check_model_drift new_data target_col s1 = (Ok false, s1) /\
   check_model_drift new_data target_col s2 = (Ok false, s2)) \/
  exists accuracy f1,
    let verdict (s : state) :=
      match last (performance_history (maintenance s)) with
      | Some last_perf => (0.05 <? p_accuracy last_perf - accuracy)%float
      | None => false
      end in
    let after (s : state) :=
      set_maintenance
        (mkModelMaintenance (model_path (maintenance s))
           (performance_history (maintenance s)
              ++ [mkPerformance (List.hd 0%Z (clock s)) accuracy f1 (len new_data)]))
        (set_clock (List.tl (clock s)) s) in
    check_model_drift new_data target_col s1 = (Ok (verdict s1), after s1) /\
    check_model_drift new_data target_col s2 = (Ok (verdict s2), after s2).
Proof.
  destruct s1 as [[path h1] files faults1 ticks1 sent1].
  destruct s2 as [[path2 h2] files2 faults2 ticks2 sent2]. simpl.
  intros -> ->.
  unfold check_model_drift.
  destruct (empty new_data); [left; split; reflexivity|].
  destruct (negb (has_column target_col new_data)); [left; split; reflexivity|].
  unfold_M.
  repeat (next_call; try (left; split; reflexivity)).
  right. eexists _, _.
  split.
  - destruct h1 as [|prev h1 _] using rev_ind.
    + reflexivity.
    + rewrite history_long, history_previous, last_snoc. simpl.
      match goal with |- context [(?a <? ?b)%float] => destruct (a <? b)%float end;
        reflexivity.
  - destruct h2 as [|prev h2 _] using rev_ind.
    + reflexivity.
    + rewrite history_long, history_previous, last_snoc. simpl.
      match goal with |- context [(?a <? ?b)%float] => destruct (a <? b)%float end;
        reflexivity.
Qed.

End DriftProps.

(** X19. [check_model_drift] never raises and never touches the store or the
    alerts; it leaves the state as it was or appends exactly one snapshot to
    the performance history, which records the number of rows of the batch
    and the time of the check. *)
Theorem drift_check_appends_at_most_one_snapshot `{SK : Sklearn}
    (new_data : DataFrame) (target_col : string) (s : state) :
  exists (verdict : bool) (s' : state),
    check_model_drift new_data target_col s = (Ok verdict, s') /\
    fs s' = fs s /\ outbox s' = outbox s /\ dump_faults s' = dump_faults s /\
    model_path (maintenance s') = model_path (maintenance s) /\
    (s' = s \/
     exists snapshot,
       performance_history (maintenance s')
         = performance_history (maintenance s) ++ [snapshot] /\
       p_samples snapshot = len new_data /\
       p_timestamp snapshot = List.hd 0%Z (clock s)).
Proof.
  destruct (check_model_drift_cases new_data target_col s)
    as [E | (accuracy & f1 & E)]; rewrite E; eexists _, _; (split; [reflexivity|]).
  - repeat split. now left.
  - simpl. repeat split. right. eexists. repeat split.
Qed.

(** X20. On an empty performance history a drift check never reports drift,
    however low the accuracy it measures. *)
Theorem first_drift_check_reports_no_drift `{SK : Sklearn}
    (new_data : DataFrame) (target_col : string) (s : state) :
  performance_history (maintenance s) = [] ->
  (check_model_drift new_data target_col s).1 = Ok false.
Proof.
  intros Hempty.
  destruct (check_model_drift_cases new_data target_col s)
    as [E | (accuracy & f1 & E)]; rewrite E; [reflexivity|].
  now rewrite Hempty.
Qed.

Lemma first_drift_check_reports_no_drift_witness :
  performance_history (maintenance Scenario.initial) = [] /\
  (check_model_drift Scenario.batch_084 "is_active" Scenario.initial).1 = Ok false.
Proof.
  split; [reflexivity|].
  apply (first_drift_check_reports_no_drift Scenario.batch_084 "is_active"
           Scenario.initial).
  reflexivity.
Defined.

(** X21. A drift check of a batch that has just been checked never reports
    drift: the accuracy is measured again on the same batch with the same
    artifact, and a number minus itself is not above 0.05. *)
Theorem drift_check_repeated_reports_no_drift `{SK : Sklearn}
    (new_data : DataFrame) (target_col : string) (s : state) :
  let s1 := (check_model_drift new_data target_col s).2 in
  (check_model_drift new_data target_col s1).1 = Ok false.
Proof.
  simpl.
  destruct (check_model_drift_cases new_data target_col s)
    as [E | (accuracy & f1 & E)]; rewrite E; simpl.
  - now rewrite E.
  - match goal with |- (check_model_drift _ _ ?st).1 = _ => set (s1 := st) end.
    destruct (check_model_drift_stable new_data target_col s s1 eq_refl eq_refl)
      as [[_ ->] | (accuracy' & f1' & Hs & Hs1)]; [reflexivity|].
    simpl in Hs, Hs1. rewrite Hs in E. injection E as _ E.
    apply app_inv_head in E. injection E as -> _.
    rewrite Hs1. unfold s1. simpl. rewrite last_snoc. simpl.
    now rewrite float_sub_diag_not_above.
Qed.

(** X22. When no file exists at [model_path], [check_model_drift] returns
    [False], [run_ab_test] returns ["old"], building a [DropoutPredictor]
    from that path raises [FileNotFoundError], and so does [retrain_model]
    on a batch that passes its checks; none of them changes the state. *)
Theorem missing_model_file `{SK : Sklearn} (s : state) (frame : DataFrame)
    (target_col : string) (new_model : Model) :
  let path := model_path (maintenance s) in
  fs s !! path = None ->
  check_model_drift frame target_col s = (Ok false, s) /\
  run_ab_test new_model frame target_col s = (Ok "old", s) /\
  DropoutPredictor_init path s = (Raise (FileNotFoundError path), s) /\
  (empty frame = false -> has_column target_col frame = true ->
   (10 <= len frame)%nat ->
   retrain_model frame target_col s = (Raise (FileNotFoundError path), s)).
Proof.
  simpl. intros Hfile. split; [now apply check_model_drift_no_file|]. split; [|split].
  - unfold run_ab_test, ab_test_metrics.
    destruct (empty frame); [reflexivity|].
    destruct (negb (has_column target_col frame)); [reflexivity|].
    unfold_M. rewrite Hfile. reflexivity.
  - unfold DropoutPredictor_init. unfold_M. rewrite Hfile. reflexivity.
  - intros He Hc Hlen%Nat.ltb_ge. unfold retrain_model. rewrite He, Hc, Hlen. simpl.
    unfold_M. rewrite Hfile. reflexivity.
Qed.

Lemma missing_model_file_witness :
  check_model_drift Scenario.batch_090 "is_active" Scenario.no_store = (Ok false, Scenario.no_store) /\
  run_ab_test "new_pred" Scenario.batch_090 "is_active" Scenario.no_store = (Ok "old", Scenario.no_store) /\
  DropoutPredictor_init Scenario.path Scenario.no_store
    = (Raise (FileNotFoundError Scenario.path), Scenario.no_store) /\
  retrain_model Scenario.training_batch "is_active" Scenario.no_store
    = (Raise (FileNotFoundError Scenario.path), Scenario.no_store).
Proof.
  destruct (missing_model_file Scenario.no_store Scenario.batch_090 "is_active" "new_pred")
    as (Hdrift & Hab & Hinit & _); [vm_compute; reflexivity|].
  destruct (missing_model_file Scenario.no_store Scenario.training_batch "is_active" "new_pred")
    as (_ & _ & _ & Hretrain); [vm_compute; reflexivity|].
  split; [exact Hdrift|]. split; [exact Hab|]. split; [exact Hinit|].
  apply Hretrain; [reflexivity | reflexivity | vm_compute; lia].
Defined.

(** ** The notifier *)

Import Notification.

Lemma print_all_frame (texts : list string) (w : world) :
  stdout_encodes (print_all texts w).2 = stdout_encodes w
  /\ smtp_sessions (print_all texts w).2 = smtp_sessions w
  /\ delivered (print_all texts w).2 = delivered w.
Proof.
  revert w. induction texts as [|text rest IH]; intros w; simpl; [easy|].
  unfold print. destruct (stdout_encodes w text); simpl; [|easy].
  destruct (IH (mkWorld (stdout_encodes w) (console w ++ [text])
                  (smtp_sessions w) (delivered w))) as (H1 & H2 & H3).
  now rewrite H1, H2, H3.
Qed.

Lemma print_all_ok (texts : list string) (w : world) :
  (print_all texts w).1 = forallb (stdout_encodes w) texts
  /\ ((print_all texts w).1 = true -> console (print_all texts w).2 = console w ++ texts).
Proof.
  revert w. induction texts as [|text rest IH]; intros w; simpl.
  - now rewrite app_nil_r.
  - unfold print. destruct (stdout_encodes w text) eqn:Htext; simpl; [|easy].
    destruct (IH (mkWorld (stdout_encodes w) (console w ++ [text])
                    (smtp_sessions w) (delivered w))) as (H1 & H2).
    simpl in *. split; [exact H1|]. intros H. rewrite (H2 H), <- app_assoc. reflexivity.
Qed.

Lemma load_config_lookup (file : config_file) (key : string) (d : json) :
  default_config !! key = Some d ->
  exists v,
    load_config file !! key = Some v
    /\ (v = d
        \/ exists kvs, file = Parsed (JObject kvs) /\ dict_of kvs !! key = Some v).
Proof.
  intros Hd.
  destruct file as [| |j]; try (exists d; split; [exact Hd|now left]).
  destruct j as [|b|x|s|xs|kvs]; try (exists d; split; [exact Hd|now left]).
  simpl. destruct (dict_of kvs !! key) as [v|] eqn:Hv.
  - exists v. split; [|right; now exists kvs].
    now apply lookup_union_Some_l.
  - exists d. split; [|now left].
    rewrite lookup_union_r; [exact Hd|exact Hv].
Qed.

Lemma send_alert_step (self : NotificationSystem) (recipient subject message : string)
    (w : world) :
  let out := send_alert self recipient subject message w in
  stdout_encodes out.2 = stdout_encodes w
  /\ exists mails,
       delivered out.2 = delivered w ++ mails
       /\ length mails <= 1
       /\ (if email_enabled self
           then (if out.1 then 1 else 0) <= length mails
           else mails = []).
Proof.
  unfold send_alert.
  destruct (truthy (config_get (config self) "enable_console" (JBool true))).
  - unfold send_console_alert.
    destruct (print_all_frame (console_block recipient subject message) w)
      as (He & _ & Hd).
    destruct (print_all (console_block recipient subject message) w) as [printed w1].
    simpl in He, Hd. destruct printed; simpl.
    + destruct (email_enabled self); simpl.
      * unfold send_email_alert. destruct (smtp_sessions w1) as [|[| |] rest]; simpl.
        -- split; [exact He|]. exists []. rewrite app_nil_r, Hd. simpl. auto.
        -- split; [exact He|]. eexists [_]. rewrite Hd. simpl. auto.
        -- split; [exact He|]. eexists [_]. rewrite Hd. simpl. auto.
        -- split; [exact He|]. exists []. rewrite app_nil_r, Hd. simpl. auto.
      * split; [exact He|]. exists []. rewrite app_nil_r, Hd. simpl. auto.
    + split; [exact He|]. exists []. rewrite app_nil_r, Hd. simpl.
      destruct (email_enabled self); auto.
  - simpl. destruct (email_enabled self); simpl.
    + unfold send_email_alert. destruct (smtp_sessions w) as [|[| |] rest]; simpl.
      * split; [reflexivity|]. exists []. rewrite app_nil_r. simpl. auto.
      * split; [reflexivity|]. eexists [_]. simpl. auto.
      * split; [reflexivity|]. eexists [_]. simpl. auto.
      * split; [reflexivity|]. exists []. rewrite app_nil_r. simpl. auto.
    + split; [reflexivity|]. exists []. rewrite app_nil_r. simpl. auto.
Qed.

Lemma send_batch_alerts_loop_count (self : NotificationSystem)
    (alerts : list (gmap string string)) :
  forall (n : nat) (w : world),
    let out := send_batch_alerts_loop self alerts n w in
    n <= out.1 <= n + length alerts
    /\ exists mails,
         delivered out.2 = delivered w ++ mails
         /\ length mails <= length alerts
         /\ (if email_enabled self then out.1 - n <= length mails else mails = []).
Proof.
  induction alerts as [|alert rest IH]; intros n w; simpl.
  - split; [lia|]. exists []. rewrite app_nil_r. split; [reflexivity|].
    split; [reflexivity|]. destruct (email_enabled self); simpl; [lia|reflexivity].
  - pose proof (send_alert_step self
                  (default "admin@school.edu" (alert !! "recipient"))
                  (default "Student Dropout Alert" (alert !! "subject"))
                  (default "" (alert !! "message")) w) as Hstep.
    destruct (send_alert self _ _ _ w) as [sent w1]. simpl in Hstep.
    destruct Hstep as (_ & mails1 & Hd1 & Hl1 & He1).
    destruct (IH (if sent then n + 1 else n) w1) as (Hn & mails2 & Hd2 & Hl2 & He2).
    split; [destruct sent; lia|].
    exists (mails1 ++ mails2). rewrite Hd2, Hd1, <- app_assoc. split; [reflexivity|].
    rewrite length_app. split; [lia|].
    destruct (email_enabled self).
    + destruct sent; lia.
    + now subst mails1 mails2.
Qed.

(** X23. Every key of the default configuration is in the configuration
    [load_config] returns, whatever the file: under the file's value where
    the file is an object that has the key, under the default otherwise.  So
    [config.get(key, fallback)] never gives its fallback for such a key. *)
Theorem config_has_every_default_key (file : config_file) (key : string)
    (d fallback : json) :
  default_config !! key = Some d ->
  load_config file !! key = Some (config_get (load_config file) key fallback)
  /\ (config_get (load_config file) key fallback = d
      \/ exists kvs,
           file = Parsed (JObject kvs)
           /\ dict_of kvs !! key = Some (config_get (load_config file) key fallback)).
Proof.
  intros Hd. destruct (load_config_lookup file key d Hd) as (v & Hv & Hfrom).
  unfold config_get. rewrite Hv. simpl. split; [reflexivity|exact Hfrom].
Qed.

Lemma config_has_every_default_key_witness :
  let file := Parsed (JObject [("enable_email", JBool true)]) in
  load_config file !! "smtp_port" = Some (config_get (load_config file) "smtp_port" JNull)
  /\ (config_get (load_config file) "smtp_port" JNull = JNum 587
      \/ exists kvs,
           file = Parsed (JObject kvs)
           /\ dict_of kvs !! "smtp_port"
              = Some (config_get (load_config file) "smtp_port" JNull)).
Proof.
  apply (config_has_every_default_key
           (Parsed (JObject [("enable_email", JBool true)])) "smtp_port" (JNum 587) JNull).
  vm_compute. reflexivity.
Defined.

(** X24. A notifier built where the configuration file is absent,
    unreadable or holds no object never opens an SMTP session and delivers
    no mail; [send_alert] prints the block of eight texts and returns
    [True] exactly when the standard output can encode all of them. *)
Theorem notifier_without_config (file : config_file)
    (recipient subject message : string) (w : world) :
  (forall kvs, file <> Parsed (JObject kvs)) ->
  let out := send_alert (NotificationSystem_init file) recipient subject message w in
  out.1 = forallb (stdout_encodes w) (console_block recipient subject message)
  /\ smtp_sessions out.2 = smtp_sessions w
  /\ delivered out.2 = delivered w
  /\ (out.1 = true
      -> console out.2 = console w ++ console_block recipient subject message).
Proof.
  intros Hfile.
  assert (load_config file = default_config) as Hcfg.
  { destruct file as [| |[|b|x|s|xs|kvs]]; try reflexivity. now destruct (Hfile kvs). }
  unfold NotificationSystem_init. rewrite Hcfg.
  unfold send_alert, email_enabled. simpl config. simpl email. simpl password.
  replace (truthy (config_get default_config "enable_console" (JBool true)))
    with true by (vm_compute; reflexivity).
  replace (truthy (config_get default_config "enable_email" (JBool false)))
    with false by (vm_compute; reflexivity).
  simpl andb. unfold send_console_alert.
  destruct (print_all_frame (console_block recipient subject message) w)
    as (_ & Hs & Hd).
  destruct (print_all_ok (console_block recipient subject message) w) as (Hok & Hc).
  destruct (print_all (console_block recipient subject message) w) as [printed w1].
  simpl in *. destruct printed; simpl; auto.
Qed.

Lemma notifier_without_config_witness :
  let w := mkWorld (fun _ => true) [] [Sent] [] in
  let out := send_alert (NotificationSystem_init Absent)
               "mentor@school.edu" "Student Dropout Risk Alert" "STU5" w in
  out.1 = true
  /\ smtp_sessions out.2 = [Sent]
  /\ delivered out.2 = []
  /\ (out.1 = true
      -> console out.2
         = console_block "mentor@school.edu" "Student Dropout Risk Alert" "STU5").
Proof.
  apply (notifier_without_config Absent
           "mentor@school.edu" "Student Dropout Risk Alert" "STU5"
           (mkWorld (fun _ => true) [] [Sent] [])).
  intros kvs. discriminate.
Defined.

(** X25. With the console enabled, a text of the block that the standard
    output cannot encode makes [send_alert] return [False] without trying
    the mail, also where mail is enabled: no SMTP session is opened and
    nothing is delivered. *)
Theorem console_failure_suppresses_mail (self : NotificationSystem)
    (recipient subject message : string) (w : world) :
  truthy (config_get (config self) "enable_console" (JBool true)) = true ->
  forallb (stdout_encodes w) (console_block recipient subject message) = false ->
  let out := send_alert self recipient subject message w in
  out.1 = false
  /\ smtp_sessions out.2 = smtp_sessions w
  /\ delivered out.2 = delivered w.
Proof.
  intros Hconsole Hencode. unfold send_alert. rewrite Hconsole.
  unfold send_console_alert.
  destruct (print_all_frame (console_block recipient subject message) w)
    as (_ & Hs & Hd).
  destruct (print_all_ok (console_block recipient subject message) w) as (Hok & _).
  destruct (print_all (console_block recipient subject message) w) as [printed w1].
  simpl in *. rewrite Hencode in Hok. subst printed. simpl. auto.
Qed.

Lemma console_failure_suppresses_mail_witness :
  let self := NotificationSystem_init
                (Parsed (JObject [("enable_email", JBool true);
                                  ("email", JStr "alerts@school.edu");
                                  ("password", JStr "secret")])) in
  let w := mkWorld ascii_only [] [Sent] [] in
  let out := send_alert self "mentor@school.edu" "Student Dropout Risk Alert" "STU5" w in
  email_enabled self = true
  /\ out.1 = false
  /\ smtp_sessions out.2 = [Sent]
  /\ delivered out.2 = [].
Proof.
  split; [vm_compute; reflexivity|].
  apply (console_failure_suppresses_mail
           (NotificationSystem_init
              (Parsed (JObject [("enable_email", JBool true);
                                ("email", JStr "alerts@school.edu");
                                ("password", JStr "secret")])))
           "mentor@school.edu" "Student Dropout Risk Alert" "STU5"
           (mkWorld ascii_only [] [Sent] [])).
  - vm_compute. reflexivity.
  - vm_compute. reflexivity.
Defined.

(** X26. [send_batch_alerts] returns at most the number of alerts, and only
    appends to the delivered mails, at most one per alert.  Where mail is
    enabled the mails delivered are at least as many as the count: a mail
    that [sendmail] delivered in a session that raised afterwards is
    delivered and not counted.  Where mail is not enabled nothing is
    delivered, and the count only says how many blocks reached the
    console. *)
Theorem batch_count_and_deliveries (self : NotificationSystem)
    (alerts : list (gmap string string)) (w : world) :
  let out := send_batch_alerts self alerts w in
  out.1 <= length alerts
  /\ exists mails,
       delivered out.2 = delivered w ++ mails
       /\ length mails <= length alerts
       /\ (if email_enabled self then out.1 <= length mails else mails = []).
Proof.
  unfold send_batch_alerts.
  destruct (send_batch_alerts_loop_count self alerts 0 w)
    as (Hn & mails & Hd & Hl & He).
  split; [lia|]. exists mails. split; [exact Hd|]. split; [exact Hl|].
  destruct (email_enabled self); [lia|exact He].
Qed.
